(** * MineGuard backend: hazard detection and spread simulation

    A shallow embedding of [backend/utils/simulation.py] (class
    [HazardSimulation]), of the two storage classes of [backend/models.py]
    and of the request handlers of [backend/routes] that the properties
    below are about.

    Numbers.  Python [int]s are [Z].  The spread model is embedded twice.
    Module [Binary64] computes as CPython does: a [float] is a binary64
    value of [SpecFloat], every operation rounds to nearest even, a decimal
    literal is the float nearest to it, and an [int] too large for a
    [float] raises [OverflowError]; the properties that depend on the
    value of a radius or of a distance (which radii are negative, whether
    the zones are strictly nested, which bucket a worker falls in) are
    stated on it.  Module [HazardSimulation] computes with exact rationals
    [Q], every decimal literal being the rational it denotes; it carries
    the properties that rounding does not touch: the structure of frames
    and records, equalities between two runs of the same computation,
    monotonicity.  In both, the frame step [int(1 / frame_interval)] is
    computed in binary64.  The sensor classifier compares its readings with
    integer constants only; it is embedded on [Q].

    Dictionaries are [gmap]s with string keys; a Python exception is a value
    of [exn] carried by [result]. *)

From Stdlib Require Import ZArith QArith List Ascii Lia Lqa.
From Stdlib Require Import Floats.SpecFloat.
From stdpp Require Import gmap strings sorting.
Import ListNotations.

Local Open Scope string_scope.

(** ** Python values and exceptions *)

Inductive exn : Type :=
| KeyError (key : string)
| ZeroDivisionError
| ValueError
| OverflowError
| TypeError
| AttributeError
| InvalidId
| DuplicateKeyError
| RuntimeError (message : string).

Inductive result (A : Type) : Type :=
| Ok (a : A)
| Raise (e : exn).
Arguments Ok {A} a.
Arguments Raise {A} e.

Definition bind {A B : Type} (r : result A) (k : A -> result B) : result B :=
  match r with
  | Ok a => k a
  | Raise e => Raise e
  end.

Notation "'do' x <- r ; k" := (bind r (fun x => k))
  (at level 10, x name, r at level 100, k at level 200).

(** [d.get(key, dflt)] on an optional field. *)
Definition get {A : Type} (field : option A) (dflt : A) : A :=
  match field with
  | Some a => a
  | None => dflt
  end.

(** [x < y] and [x > y] on rationals, as booleans. *)
Definition Qlt_bool (x y : Q) : bool := negb (Qle_bool y x).
Definition Qgt_bool (x y : Q) : bool := Qlt_bool y x.

(** ** utils/simulation.py

    The class in exact arithmetic, with its classifier, its route advisor
    and its frame generator. *)

Module HazardSimulation.

Local Open Scope Q_scope.

Record Location : Type := mkLocation
  { lat : Q; lng : Q; sector : string }.

(** A hazard document.  [calculate_danger_zones] reads the type with
    [hazard.get('type', 'Gas Leak')], so the key may be absent ([None]);
    the location is read by indexing. *)
Record Hazard : Type := mkHazard
  { type : option string; location : Location }.

(** A worker dictionary: every key is read with [worker.get]. *)
Record Worker : Type := mkWorker
  { w_id : option string;
    w_name : option string;
    w_role : option string;
    w_sector : option string;
    w_lat : option Q;
    w_lng : option Q }.

Record DangerZone : Type := mkDangerZone
  { level : string;
    radius : Q;
    color : string;
    severity : string;
    evacuation_time_minutes : Z }.

Definition SPREAD_RATES : gmap string Q :=
  list_to_map
    [ ("Gas Leak", 0.002);
      ("Fire", 0.003);
      ("Rock Fall", 0.001);
      ("Poor Ventilation", 0.0015);
      ("Equipment Failure", 0.0008);
      ("SOS - EMERGENCY", 0.004) ].

Definition spread_rate_of (hazard : Hazard) : Q :=
  let hazard_type := get (type hazard) "Gas Leak" in
  get (SPREAD_RATES !! hazard_type) 0.002.

Definition calculate_danger_zones
    (hazard : Hazard) (simulation_time_seconds : Q) : list DangerZone :=
  let spread_rate := spread_rate_of hazard in
  let max_radius := simulation_time_seconds * spread_rate in
  [ {| level := "critical";
       radius := max_radius * 0.33;
       color := "#ef4444";
       severity := "critical";
       evacuation_time_minutes := 1 |};
    {| level := "high";
       radius := max_radius * 0.67;
       color := "#f97316";
       severity := "high";
       evacuation_time_minutes := 3 |};
    {| level := "medium";
       radius := max_radius;
       color := "#eab308";
       severity := "medium";
       evacuation_time_minutes := 5 |} ].

(** *** get_action *)

Definition get_action (danger_level hazard_type : string) : string :=
  let actions : gmap string string :=
    list_to_map
      [ ("critical",
         "IMMEDIATE EVACUATION - " ++ hazard_type
           ++ " detected in critical zone. Leave now!");
        ("high",
         "EVACUATE AREA - " ++ hazard_type
           ++ " spreading. Move to safe zone.");
        ("medium",
         "ALERT - " ++ hazard_type
           ++ " detected nearby. Prepare for evacuation.") ] in
  get (actions !! danger_level) "Monitor situation".

(** *** get_evacuation_route *)

Record Route : Type := mkRoute
  { direction : string;
    priority : string;
    estimated_time_minutes : Z }.

Definition get_evacuation_route
    {HL WL : Type} (hazard_location : HL) (worker_location : WL)
    (sector : string) : Route :=
  let direction := "Exit to safe zone away from hazard" in
  let direction :=
    if String.eqb sector "A" then "Move to Sector C via Tunnel 2"
    else if String.eqb sector "B" then "Move to Sector A via Tunnel 1"
    else if String.eqb sector "C"
         then "Exit mine immediately via Main Entrance"
    else direction in
  {| direction := direction;
     priority := "CRITICAL";
     estimated_time_minutes := 2 |}.

(** *** detect_hazard_from_sensors *)

Definition detect_hazard_from_sensors
    (co2 temperature humidity : Q) : option string * option string :=
  if Qgt_bool co2 1000 then
    (Some "Gas Leak",
     Some (if Qgt_bool co2 2000 then "critical" else "high"))
  else if Qgt_bool temperature 40 then
    (Some "Fire",
     Some (if Qgt_bool temperature 55 then "critical" else "high"))
  else if Qlt_bool humidity 20 then
    (Some "Poor Ventilation", Some "medium")
  else if Qlt_bool 800 co2 && Qle_bool co2 1000 then
    (Some "High CO2 Levels", Some "medium")
  else (None, None).

(** *** get_affected_workers *)

Record AffectedWorker : Type := mkAffectedWorker
  { worker_id : option string;
    name : option string;
    role : option string;
    worker_sector : option string;
    distance_from_hazard : Q;
    recommended_action : string }.

(** The Euclidean distance is [math.sqrt] of this sum of squares.  The
    square root of a rational is in general not rational, so the model
    keeps the squared distance and expresses the two uses of the distance
    on it: the test [distance <= zone['radius']] and [round(distance, 4)]. *)
Definition distance_squared
    (worker_lat worker_lng hazard_lat hazard_lng : Q) : Q :=
  (worker_lat - hazard_lat) ^ 2 + (worker_lng - hazard_lng) ^ 2.

(** [math.sqrt(d2) <= r], for [0 <= d2]. *)
Definition sqrt_le_bool (d2 r : Q) : bool :=
  Qle_bool 0 r && Qle_bool d2 (r * r).

(** [round(math.sqrt(d2), 4)]: the multiple of 1/10000 nearest to the
    square root, ties to the even multiple. *)
Definition round_sqrt_4 (d2 : Q) : Q :=
  let x := d2 * 100000000 in
  let a := Qnum x in
  let b := Zpos (Qden x) in
  let k := Z.sqrt (a / b) in
  let n :=
    match (4 * a ?= (2 * k + 1) ^ 2 * b)%Z with
    | Gt => (k + 1)%Z
    | Eq => if Z.even k then k else (k + 1)%Z
    | Lt => k
    end in
  n # 10000.

Definition empty_affected : gmap string (list AffectedWorker) :=
  list_to_map [ ("critical", []); ("high", []); ("medium", []) ].

(** One iteration of [for worker in workers]: the inner [for zone in
    danger_zones] stops at the first zone that contains the worker
    ([break]); [affected[...]] and [hazard['type']] raise [KeyError] on a
    missing key. *)
Definition visit_worker
    (hazard : Hazard) (danger_zones : list DangerZone)
    (affected : gmap string (list AffectedWorker)) (worker : Worker)
    : result (gmap string (list AffectedWorker)) :=
  let hazard_lat := lat (location hazard) in
  let hazard_lng := lng (location hazard) in
  let worker_lat := get (w_lat worker) 0 in
  let worker_lng := get (w_lng worker) 0 in
  let d2 := distance_squared worker_lat worker_lng hazard_lat hazard_lng in
  match find (fun zone => sqrt_le_bool d2 (radius zone)) danger_zones with
  | None => Ok affected
  | Some zone =>
      match affected !! level zone with
      | None => Raise (KeyError (level zone))
      | Some bucket =>
          match type hazard with
          | None => Raise (KeyError "type")
          | Some hazard_type =>
              let entry :=
                {| worker_id := w_id worker;
                   name := w_name worker;
                   role := w_role worker;
                   worker_sector := w_sector worker;
                   distance_from_hazard := round_sqrt_4 d2;
                   recommended_action :=
                     get_action (level zone) hazard_type |} in
              Ok (<[level zone := (bucket ++ [entry])%list]> affected)
          end
      end
  end.

Fixpoint for_workers
    (hazard : Hazard) (danger_zones : list DangerZone)
    (workers : list Worker) (affected : gmap string (list AffectedWorker))
    : result (gmap string (list AffectedWorker)) :=
  match workers with
  | [] => Ok affected
  | worker :: rest =>
      do affected' <- visit_worker hazard danger_zones affected worker;
      for_workers hazard danger_zones rest affected'
  end.

Definition get_affected_workers
    (hazard : Hazard) (workers : list Worker)
    (simulation_time_seconds : Q)
    : result (gmap string (list AffectedWorker)) :=
  let danger_zones :=
    calculate_danger_zones hazard simulation_time_seconds in
  for_workers hazard danger_zones workers empty_affected.

(** *** generate_simulation_frames *)

Definition prec : Z := 53.
Definition emax : Z := 1024.

(** [a / b] on two [int]s: the binary64 nearest to the exact quotient. *)
Definition int_truediv (a b : Z) : result spec_float :=
  let exact (n : Z) :=
    match n with
    | Z0 => S754_zero false
    | Zpos p => S754_finite false p 0
    | Zneg p => S754_finite true p 0
    end in
  if (b =? 0)%Z then Raise ZeroDivisionError
  else
    match SFdiv prec emax (exact a) (exact b) with
    | S754_infinity _ => Raise OverflowError
    | q => Ok q
    end.

(** [float(n)] *)
Definition float_of_int (n : Z) : result spec_float :=
  match binary_normalize prec emax n 0 false with
  | S754_infinity _ => Raise OverflowError
  | x => Ok x
  end.

(** [x / y] on two [float]s *)
Definition float_truediv (x y : spec_float) : result spec_float :=
  match y with
  | S754_zero _ => Raise ZeroDivisionError
  | _ => Ok (SFdiv prec emax x y)
  end.

(** [int(x)]: truncation toward zero *)
Definition int_of_float (x : spec_float) : result Z :=
  match x with
  | S754_nan => Raise ValueError
  | S754_infinity _ => Raise OverflowError
  | S754_zero _ => Ok 0%Z
  | S754_finite s m e =>
      let magnitude :=
        match e with
        | Zneg p => Z.shiftr (Zpos m) (Zpos p)
        | _ => Z.shiftl (Zpos m) e
        end in
      Ok (cond_Zopp s magnitude)
  end.

(** [range(start, stop, step)] as a list *)
Definition range (start stop step : Z) : result (list Z) :=
  if (step =? 0)%Z then Raise ValueError
  else
    let '(lo, hi, stride) :=
      if (0 <? step)%Z then (start, stop, step)
      else (stop, start, (- step)%Z) in
    let n := if (lo <? hi)%Z then ((hi - lo - 1) / stride + 1)%Z else 0%Z in
    Ok (map (fun i => (start + Z.of_nat i * step)%Z) (seq 0 (Z.to_nat n))).

Record Frame : Type := mkFrame
  { time : Z;
    danger_zones : list DangerZone;
    affected_workers : gmap string (list AffectedWorker);
    hazard_center : Location }.

Definition make_frame
    (hazard : Hazard) (workers : list Worker) (t : Z) : result Frame :=
  let zones := calculate_danger_zones hazard (inject_Z t) in
  do affected <- get_affected_workers hazard workers (inject_Z t);
  Ok {| time := t;
        danger_zones := zones;
        affected_workers := affected;
        hazard_center :=
          {| lat := lat (location hazard);
             lng := lng (location hazard);
             sector := sector (location hazard) |} |}.

Fixpoint for_times
    (hazard : Hazard) (workers : list Worker) (times : list Z)
    (frames : list Frame) : result (list Frame) :=
  match times with
  | [] => Ok frames
  | t :: rest =>
      do frame <- make_frame hazard workers t;
      for_times hazard workers rest (frames ++ [frame])%list
  end.

Definition frame_step (fps : Z) : result Z :=
  do frame_interval <- int_truediv 1 fps;
  do one <- float_of_int 1;
  do per_interval <- float_truediv one frame_interval;
  int_of_float per_interval.

Definition generate_simulation_frames
    (hazard : Hazard) (workers : list Worker) (total_seconds fps : Z)
    : result (list Frame) :=
  do step <- frame_step fps;
  do times <- range 0 total_seconds step;
  for_times hazard workers times [].

End HazardSimulation.

Import HazardSimulation.

(** ** utils/simulation.py in binary64

    The spread model once more, with the numbers CPython computes with: a
    number is an [int] or a [float], a [float] is a binary64 value
    ([spec_float] at precision 53), arithmetic rounds to nearest even, a
    decimal literal is the binary64 nearest to it and an [int] too large
    for a [float] raises [OverflowError].

    The square [x ** 2] of a [float] is computed by CPython's [float_pow]:
    special values are decided there, any other square is left to the C
    library's [pow], which need not return the correctly rounded square
    (it differs from [x * x] in the last bit for some [x]).  That function
    is the parameter [square] of the definitions below;
    [correctly_rounded_square] is the instance of a platform whose [pow]
    rounds the exact square correctly. *)

Module Binary64.

Inductive number : Type :=
| PyInt (n : Z)
| PyFloat (x : spec_float).

(** The float of the decimal literal [digits / scale], [scale] a power of
    ten: [float_literal 33 100] is [0.33]. *)
Definition float_literal (digits scale : positive) : spec_float :=
  SFdiv prec emax (S754_finite false digits 0) (S754_finite false scale 0).

Definition zero : spec_float := S754_zero false.
Definition one : spec_float := S754_finite false 4503599627370496 (-52).

Definition is_nan (x : spec_float) : bool :=
  match x with
  | S754_nan => true
  | _ => false
  end.

Definition is_finite (x : spec_float) : bool :=
  match x with
  | S754_zero _ | S754_finite _ _ _ => true
  | _ => false
  end.

(** The conversion of an operand to [float] in mixed arithmetic *)
Definition to_float (a : number) : result spec_float :=
  match a with
  | PyInt n => float_of_int n
  | PyFloat x => Ok x
  end.

(** [a * y] for a [float] [y] *)
Definition mul_float (a : number) (y : spec_float) : result spec_float :=
  do x <- to_float a;
  Ok (SFmul prec emax x y).

(** [a - b] *)
Definition sub (a b : number) : result number :=
  match a, b with
  | PyInt m, PyInt n => Ok (PyInt (m - n))
  | _, _ =>
      do x <- to_float a;
      do y <- to_float b;
      Ok (PyFloat (SFsub prec emax x y))
  end.

(** [a + b] *)
Definition add (a b : number) : result number :=
  match a, b with
  | PyInt m, PyInt n => Ok (PyInt (m + n))
  | _, _ =>
      do x <- to_float a;
      do y <- to_float b;
      Ok (PyFloat (SFadd prec emax x y))
  end.

(** [round(x, 4)] on a [float]: the decimal with four digits after the
    point nearest to the exact value of [x], ties to the even digit, then
    the float nearest to that decimal; infinities and NaN are returned
    unchanged. *)
Definition round_4 (x : spec_float) : spec_float :=
  match x with
  | S754_finite s m e =>
      let a := (Zpos m * 10000)%Z in
      let n :=
        match e with
        | Zneg p =>
            let b := Z.pow_pos 2 p in
            let q := (a / b)%Z in
            match (2 * (a mod b) ?= b)%Z with
            | Gt => (q + 1)%Z
            | Eq => if Z.even q then q else (q + 1)%Z
            | Lt => q
            end
        | _ => (a * 2 ^ e)%Z
        end in
      match n with
      | Zpos p =>
          SFdiv prec emax (S754_finite s p 0) (S754_finite false 10000 0)
      | _ => S754_zero s
      end
  | _ => x
  end.

(** [math.sqrt(a)]: the argument is converted to [float]; a negative
    argument raises [ValueError]. *)
Definition math_sqrt (a : number) : result spec_float :=
  do x <- to_float a;
  let r := SFsqrt prec emax x in
  if is_nan r && negb (is_nan x) then Raise ValueError else Ok r.

Record Location : Type := mkLocation
  { lat : number; lng : number; sector : string }.

Record Hazard : Type := mkHazard
  { type : option string; location : Location }.

Record Worker : Type := mkWorker
  { w_id : option string;
    w_name : option string;
    w_role : option string;
    w_sector : option string;
    w_lat : option number;
    w_lng : option number }.

Record DangerZone : Type := mkDangerZone
  { level : string;
    radius : spec_float;
    color : string;
    severity : string;
    evacuation_time_minutes : Z }.

Definition SPREAD_RATES : gmap string spec_float :=
  list_to_map
    [ ("Gas Leak", float_literal 2 1000);
      ("Fire", float_literal 3 1000);
      ("Rock Fall", float_literal 1 1000);
      ("Poor Ventilation", float_literal 15 10000);
      ("Equipment Failure", float_literal 8 10000);
      ("SOS - EMERGENCY", float_literal 4 1000) ].

Definition spread_rate_of (hazard : Hazard) : spec_float :=
  let hazard_type := get (type hazard) "Gas Leak" in
  get (SPREAD_RATES !! hazard_type) (float_literal 2 1000).

Definition calculate_danger_zones
    (hazard : Hazard) (simulation_time_seconds : number)
    : result (list DangerZone) :=
  let spread_rate := spread_rate_of hazard in
  do max_radius <- mul_float simulation_time_seconds spread_rate;
  Ok [ {| level := "critical";
          radius := SFmul prec emax max_radius (float_literal 33 100);
          color := "#ef4444";
          severity := "critical";
          evacuation_time_minutes := 1 |};
       {| level := "high";
          radius := SFmul prec emax max_radius (float_literal 67 100);
          color := "#f97316";
          severity := "high";
          evacuation_time_minutes := 3 |};
       {| level := "medium";
          radius := max_radius;
          color := "#eab308";
          severity := "medium";
          evacuation_time_minutes := 5 |} ].

Record AffectedWorker : Type := mkAffectedWorker
  { worker_id : option string;
    name : option string;
    role : option string;
    worker_sector : option string;
    distance_from_hazard : spec_float;
    recommended_action : string }.

Definition empty_affected : gmap string (list AffectedWorker) :=
  list_to_map [ ("critical", []); ("high", []); ("medium", []) ].

Section Libm.

(** The C library's [pow(x, 2.0)] for a finite [x > 0] other than 1 *)
Variable square : spec_float -> spec_float.

(** [x ** 2] on a [float]: NaN, the infinities, zero and 1 are answered
    by [float_pow] itself; the square of [-x] is that of [x]; a result
    that overflows raises [OverflowError]. *)
Definition float_pow2 (x : spec_float) : result spec_float :=
  match x with
  | S754_nan => Ok S754_nan
  | S754_infinity _ => Ok (S754_infinity false)
  | S754_zero _ => Ok (S754_zero false)
  | S754_finite _ m e =>
      if SFeqb (S754_finite false m e) one then Ok one
      else
        match square (S754_finite false m e) with
        | S754_infinity _ => Raise OverflowError
        | y => Ok y
        end
  end.

(** [a ** 2] *)
Definition pow2 (a : number) : result number :=
  match a with
  | PyInt n => Ok (PyInt (n * n))
  | PyFloat x =>
      do y <- float_pow2 x;
      Ok (PyFloat y)
  end.

(** One iteration of [for worker in workers]: the distance is computed
    first; the inner [for zone in danger_zones] stops at the first zone
    that contains the worker ([break]); [affected[...]] and
    [hazard['type']] raise [KeyError] on a missing key. *)
Definition visit_worker
    (hazard : Hazard) (danger_zones : list DangerZone)
    (affected : gmap string (list AffectedWorker)) (worker : Worker)
    : result (gmap string (list AffectedWorker)) :=
  let hazard_lat := lat (location hazard) in
  let hazard_lng := lng (location hazard) in
  let worker_lat := get (w_lat worker) (PyInt 0) in
  let worker_lng := get (w_lng worker) (PyInt 0) in
  do dlat <- sub worker_lat hazard_lat;
  do dlat2 <- pow2 dlat;
  do dlng <- sub worker_lng hazard_lng;
  do dlng2 <- pow2 dlng;
  do sum <- add dlat2 dlng2;
  do distance <- math_sqrt sum;
  match find (fun zone => SFleb distance (radius zone)) danger_zones with
  | None => Ok affected
  | Some zone =>
      match affected !! level zone with
      | None => Raise (KeyError (level zone))
      | Some bucket =>
          let rounded := round_4 distance in
          match type hazard with
          | None => Raise (KeyError "type")
          | Some hazard_type =>
              let entry :=
                {| worker_id := w_id worker;
                   name := w_name worker;
                   role := w_role worker;
                   worker_sector := w_sector worker;
                   distance_from_hazard := rounded;
                   recommended_action :=
                     get_action (level zone) hazard_type |} in
              Ok (<[level zone := (bucket ++ [entry])%list]> affected)
          end
      end
  end.

Fixpoint for_workers
    (hazard : Hazard) (danger_zones : list DangerZone)
    (workers : list Worker) (affected : gmap string (list AffectedWorker))
    : result (gmap string (list AffectedWorker)) :=
  match workers with
  | [] => Ok affected
  | worker :: rest =>
      do affected' <- visit_worker hazard danger_zones affected worker;
      for_workers hazard danger_zones rest affected'
  end.

Definition get_affected_workers
    (hazard : Hazard) (workers : list Worker)
    (simulation_time_seconds : number)
    : result (gmap string (list AffectedWorker)) :=
  do danger_zones <- calculate_danger_zones hazard simulation_time_seconds;
  for_workers hazard danger_zones workers empty_affected.

End Libm.

(** A platform whose [pow(x, 2.0)] is the correctly rounded square *)
Definition correctly_rounded_square (x : spec_float) : spec_float :=
  SFmul prec emax x x.

End Binary64.

(** ** The document store and the notification sink

    The handlers run in a world made of the two MongoDB collections they
    touch and of the events delivered to the connected supervisors.  A
    computation takes a world and returns a value or an exception together
    with the world it leaves: what was written before an exception stays
    written. *)

Module Store.

Record LocationDoc : Type := mkLocationDoc
  { loc_lat : option Q; loc_lng : option Q; loc_sector : option string }.

Record SensorSnapshot : Type := mkSensorSnapshot
  { snap_co2 : option Q;
    snap_temperature : option Q;
    snap_humidity : option Q }.

(** An f-string: literal text and interpolated numbers. *)
Inductive piece : Type :=
| Lit (text : string)
| Num (value : Q).

(** The dictionary passed to [HazardModel.create_hazard]; [None] is an
    absent key. *)
Record HazardData : Type := mkHazardData
  { hd_type : option string;
    hd_severity : option (option string);
    hd_location : option LocationDoc;
    hd_worker : option string;
    hd_source : option string;
    hd_description : option (list piece);
    hd_sensorData : option SensorSnapshot }.

(** A document of the [hazards] collection, without its [_id]. *)
Record HazardDoc : Type := mkHazardDoc
  { doc_type : option string;
    doc_severity : option string;
    doc_location : LocationDoc;
    doc_worker : option string;
    doc_source : string;
    doc_timestamp : Z;
    doc_status : string;
    doc_description : list piece;
    doc_sensorData : SensorSnapshot }.

(** A hazard as [get_hazard_by_id] returns it: the document with its
    [_id] turned into a string. *)
Record HazardRecord : Type := mkHazardRecord
  { _id : string; fields : HazardDoc }.

(** The JSON body of a sensor request, and the document logged for it. *)
Record SensorData : Type := mkSensorData
  { sd_workerId : option string;
    sd_co2 : option Q;
    sd_temperature : option Q;
    sd_humidity : option Q;
    sd_location : option LocationDoc }.

Record ReadingDoc : Type := mkReadingDoc
  { rd_workerId : option string;
    rd_co2 : option Q;
    rd_temperature : option Q;
    rd_humidity : option Q;
    rd_location : LocationDoc;
    rd_timestamp : Z }.

Inductive Event : Type :=
| new_hazard (hazard : option HazardRecord)
| start_simulation (hazardId : string).

(** Collections are keyed by the 24-digit hexadecimal form of the
    [ObjectId]. *)
Record World : Type := mkWorld
  { hazards_collection : gmap string HazardDoc;
    sensors_collection : gmap string ReadingDoc;
    delivered : list Event }.

Definition M (A : Type) : Type := World -> result A * World.

Definition ret {A : Type} (a : A) : M A := fun w => (Ok a, w).

Definition raise {A : Type} (e : exn) : M A := fun w => (Raise e, w).

Definition bindM {A B : Type} (m : M A) (k : A -> M B) : M B :=
  fun w =>
    match m w with
    | (Ok a, w') => k a w'
    | (Raise e, w') => (Raise e, w')
    end.

(** [try: body except Exception as e: handler(e)] *)
Definition try_except {A : Type} (body : M A) (handler : exn -> M A) : M A :=
  fun w =>
    match body w with
    | (Ok a, w') => (Ok a, w')
    | (Raise e, w') => handler e w'
    end.

Definition lift {A : Type} (r : result A) : M A := fun w => (r, w).

End Store.

Import Store.

Notation "'let*' x ':=' m 'in' k" := (bindM m (fun x => k))
  (at level 10, x name, m at level 100, k at level 200).

(** *** bson.objectid *)

Definition is_hex_digit (c : ascii) : bool :=
  let n := nat_of_ascii c in
  ((48 <=? n) && (n <=? 57) || (97 <=? n) && (n <=? 102)
   || (65 <=? n) && (n <=? 70))%nat.

Definition lower_hex (c : ascii) : ascii :=
  let n := nat_of_ascii c in
  if ((65 <=? n) && (n <=? 70))%nat then ascii_of_nat (n + 32) else c.

Fixpoint string_forall (p : ascii -> bool) (s : string) : bool :=
  match s with
  | EmptyString => true
  | String c rest => p c && string_forall p rest
  end.

Fixpoint string_map (f : ascii -> ascii) (s : string) : string :=
  match s with
  | EmptyString => EmptyString
  | String c rest => String (f c) (string_map f rest)
  end.

(** [ObjectId(s)] for a [str]: 24 hexadecimal digits, or [InvalidId]; the
    result is identified with [str(ObjectId(s))], its lower-case form.
    bson decodes the 24 characters with [bytes.fromhex], which also skips
    white space between two bytes: a 24-character string with blanks is
    outside this model, and the statements below take an id with the
    outcome of [ObjectId] on it. *)
Definition ObjectId (s : string) : result string :=
  if (String.length s =? 24)%nat && string_forall is_hex_digit s
  then Ok (string_map lower_hex s)
  else Raise InvalidId.

(** *** pymongo collection operations *)

(** [collection.insert_one(doc)] with the [ObjectId] drawn for the new
    document. *)
Definition insert_hazard (oid : string) (doc : HazardDoc) : M string :=
  fun w =>
    match hazards_collection w !! oid with
    | Some _ => (Raise DuplicateKeyError, w)
    | None =>
        (Ok oid,
         {| hazards_collection := <[oid := doc]> (hazards_collection w);
            sensors_collection := sensors_collection w;
            delivered := delivered w |})
    end.

Definition insert_reading (oid : string) (doc : ReadingDoc) : M string :=
  fun w =>
    match sensors_collection w !! oid with
    | Some _ => (Raise DuplicateKeyError, w)
    | None =>
        (Ok oid,
         {| hazards_collection := hazards_collection w;
            sensors_collection := <[oid := doc]> (sensors_collection w);
            delivered := delivered w |})
    end.

Definition find_one_hazard (oid : string) : M (option HazardDoc) :=
  fun w => (Ok (hazards_collection w !! oid), w).

Record UpdateResult : Type := mkUpdateResult
  { matched_count : Z; modified_count : Z }.

Definition set_status (status : string) (doc : HazardDoc) : HazardDoc :=
  {| doc_type := doc_type doc;
     doc_severity := doc_severity doc;
     doc_location := doc_location doc;
     doc_worker := doc_worker doc;
     doc_source := doc_source doc;
     doc_timestamp := doc_timestamp doc;
     doc_status := status;
     doc_description := doc_description doc;
     doc_sensorData := doc_sensorData doc |}.

(** [update_one({'_id': oid}, {'$set': {'status': status}})]: a document
    that matches and already holds the value is matched, not modified. *)
Definition update_one_status (oid status : string) : M UpdateResult :=
  fun w =>
    match hazards_collection w !! oid with
    | None => (Ok {| matched_count := 0; modified_count := 0 |}, w)
    | Some doc =>
        if String.eqb (doc_status doc) status
        then (Ok {| matched_count := 1; modified_count := 0 |}, w)
        else
          (Ok {| matched_count := 1; modified_count := 1 |},
           {| hazards_collection :=
                <[oid := set_status status doc]> (hazards_collection w);
              sensors_collection := sensors_collection w;
              delivered := delivered w |})
    end.

(** *** pymongo cursors *)

(** [collection.find(filter)]: the stored documents that satisfy the
    filter, each with its [_id] as a string.  Without a sort the order is
    the store's own. *)
Definition find_hazards (matches : HazardDoc -> bool) (w : World)
    : list HazardRecord :=
  map (fun kv => {| _id := fst kv; fields := snd kv |})
    (List.filter (fun kv => matches (snd kv))
       (map_to_list (hazards_collection w))).

(** [.sort('timestamp', -1)]: newest first; the order among documents of
    equal timestamp is the sort's own. *)
Definition newer_or_equal (r1 r2 : HazardRecord) : Prop :=
  (doc_timestamp (fields r2) <= doc_timestamp (fields r1))%Z.

#[global] Instance newer_or_equal_dec (r1 r2 : HazardRecord)
    : Decision (newer_or_equal r1 r2) :=
  Z_le_dec (doc_timestamp (fields r2)) (doc_timestamp (fields r1)).

Definition sort_newest_first (records : list HazardRecord)
    : list HazardRecord :=
  merge_sort newer_or_equal records.

(** [.limit(n)]: at most [n] documents; 0 means no limit, and a negative
    [n] asks for a single batch of at most [-n] documents. *)
Definition cursor_limit {A : Type} (n : Z) (documents : list A) : list A :=
  if (n =? 0)%Z then documents else take (Z.to_nat (Z.abs n)) documents.

(** ** models.py *)

Module HazardModel.

Definition get_hazard_by_id (hazard_id : string) : M (option HazardRecord) :=
  let* oid := lift (ObjectId hazard_id) in
  let* hazard := find_one_hazard oid in
  ret (match hazard with
       | Some doc => Some {| _id := oid; fields := doc |}
       | None => None
       end).

Definition create_hazard
    (new_oid : string) (utcnow : Z) (hazard_data : HazardData)
    : M (option HazardRecord) :=
  let where_ := get (hd_location hazard_data) (mkLocationDoc None None None) in
  let sensors :=
    get (hd_sensorData hazard_data) (mkSensorSnapshot None None None) in
  let hazard :=
    {| doc_type := hd_type hazard_data;
       doc_severity := get (hd_severity hazard_data) (Some "medium");
       doc_location :=
         {| loc_lat := loc_lat where_;
            loc_lng := loc_lng where_;
            loc_sector := loc_sector where_ |};
       doc_worker := hd_worker hazard_data;
       doc_source := get (hd_source hazard_data) "WORKER";
       doc_timestamp := utcnow;
       doc_status := "pending";
       doc_description := get (hd_description hazard_data) [];
       doc_sensorData :=
         {| snap_co2 := snap_co2 sensors;
            snap_temperature := snap_temperature sensors;
            snap_humidity := snap_humidity sensors |} |} in
  let* inserted_id := insert_hazard new_oid hazard in
  get_hazard_by_id inserted_id.

Definition update_hazard_status (hazard_id status : string)
    : M (option HazardRecord) :=
  let* oid := lift (ObjectId hazard_id) in
  let* result := update_one_status oid status in
  if (modified_count result >? 0)%Z then get_hazard_by_id hazard_id
  else ret None.

Definition get_all_hazards (limit : Z) : M (list HazardRecord) :=
  fun w =>
    (Ok (cursor_limit limit
           (sort_newest_first (find_hazards (fun _ => true) w))), w).

Definition get_active_hazards : M (list HazardRecord) :=
  fun w =>
    (Ok (sort_newest_first
           (find_hazards
              (fun doc =>
                 existsb (String.eqb (doc_status doc))
                   ["pending"; "acknowledged"; "escalated"]) w)), w).

Definition get_hazards_by_worker (worker_id : string)
    : M (list HazardRecord) :=
  fun w =>
    (Ok (sort_newest_first
           (find_hazards
              (fun doc =>
                 match doc_worker doc with
                 | Some worker => String.eqb worker worker_id
                 | None => false
                 end) w)), w).

Definition get_hazards_by_sector (sector : string)
    : M (list HazardRecord) :=
  fun w =>
    (Ok (sort_newest_first
           (find_hazards
              (fun doc =>
                 match loc_sector (doc_location doc) with
                 | Some s => String.eqb s sector
                 | None => false
                 end) w)), w).

End HazardModel.

Module SensorModel.

Definition log_sensor_reading
    (new_oid : string) (utcnow : Z) (sensor_data : option SensorData)
    : M string :=
  match sensor_data with
  | None => raise AttributeError
  | Some sensor_data =>
      let where_ :=
        get (sd_location sensor_data) (mkLocationDoc None None None) in
      let reading :=
        {| rd_workerId := sd_workerId sensor_data;
           rd_co2 := sd_co2 sensor_data;
           rd_temperature := sd_temperature sensor_data;
           rd_humidity := sd_humidity sensor_data;
           rd_location :=
             {| loc_lat := loc_lat where_;
                loc_lng := loc_lng where_;
                loc_sector := loc_sector where_ |};
           rd_timestamp := utcnow |} in
      insert_reading new_oid reading
  end.

End SensorModel.

(** ** routes *)

Module Routes.

Inductive Body : Type :=
| hazard_updated (hazard : HazardRecord) (message : string)
| sensor_hazard
    (hazardType severity : option string) (hazardId : string)
    (message : string)
| sensor_normal (message : string)
| error_message (text : string)
| error_exception (e : exn).

(** [jsonify(body), status_code] *)
Record Response : Type := mkResponse
  { body : Body; status_code : Z }.

(** [hazard['_id']] on the value returned by the model *)
Definition hazard_id_of (hazard : option HazardRecord) : M string :=
  match hazard with
  | Some record => ret (_id record)
  | None => raise TypeError
  end.

(** *** routes/hazards.py: PUT /hazards/<hazard_id>/status *)

Record StatusRequest : Type := mkStatusRequest
  { rq_status : option string }.

Definition valid_statuses : list string :=
  ["pending"; "acknowledged"; "escalated"; "resolved"].

Definition update_hazard_status
    (hazard_id : string) (request_json : option StatusRequest) : M Response :=
  try_except
    (match request_json with
     | None => raise AttributeError
     | Some data =>
         match rq_status data with
         | None => ret {| body := error_message "Invalid status";
                          status_code := 400 |}
         | Some status =>
             if negb (existsb (String.eqb status) valid_statuses)
             then ret {| body := error_message "Invalid status";
                         status_code := 400 |}
             else
               let* updated_hazard :=
                 HazardModel.update_hazard_status hazard_id status in
               match updated_hazard with
               | None => ret {| body := error_message "Hazard not found";
                                status_code := 404 |}
               | Some hazard =>
                   ret {| body :=
                            hazard_updated hazard
                              ("Hazard status updated to " ++ status);
                          status_code := 200 |}
               end
         end
     end)
    (fun e => ret {| body := error_exception e; status_code := 500 |}).

(** *** routes/sensors.py: POST /sensor-data *)

(** What the request draws from its environment: the two [ObjectId]s and
    clock readings of its two inserts, and [current_app.socketio], absent
    or an [emit] that delivers the event or raises. *)
Record Env : Type := mkEnv
  { reading_oid : string;
    reading_time : Z;
    hazard_oid : string;
    hazard_time : Z;
    socketio : option (Event -> option exn) }.

Definition emit (socket : Event -> option exn) (event : Event) : M unit :=
  fun w =>
    match socket event with
    | Some e => (Raise e, w)
    | None =>
        (Ok tt,
         {| hazards_collection := hazards_collection w;
            sensors_collection := sensors_collection w;
            delivered := (delivered w ++ [event])%list |})
    end.

(** The block that emits the two events for a new hazard:
    [try: if hasattr(current_app, 'socketio'): ... except Exception as e:
    print(...)]. *)
Definition broadcast (env : Env) (hazard : option HazardRecord) : M unit :=
  try_except
    (match socketio env with
     | Some socket =>
         let* _ := emit socket (new_hazard hazard) in
         let* hazardId := hazard_id_of hazard in
         emit socket (start_simulation hazardId)
     | None => ret tt
     end)
    (fun e => ret tt).

Definition receive_sensor_data
    (env : Env) (request_json : option SensorData) : M Response :=
  try_except
    (let* _ := SensorModel.log_sensor_reading
           (reading_oid env) (reading_time env) request_json in
     match request_json with
     | None => raise AttributeError
     | Some data =>
         let co2 := get (sd_co2 data) 400%Q in
         let temperature := get (sd_temperature data) 25%Q in
         let humidity := get (sd_humidity data) 60%Q in
         let '(hazard_type, severity) :=
           detect_hazard_from_sensors co2 temperature humidity in
         match hazard_type with
         | Some detected =>
             let* hazard :=
               HazardModel.create_hazard (hazard_oid env) (hazard_time env)
                 {| hd_type := hazard_type;
                    hd_severity := Some severity;
                    hd_location :=
                      Some (get (sd_location data)
                              (mkLocationDoc None None None));
                    hd_worker := Some (get (sd_workerId data) "SENSOR_01");
                    hd_source := Some "IoT_SENSOR";
                    hd_description :=
                      Some [ Lit "Auto-detected: CO2="; Num co2;
                             Lit "ppm, Temp="; Num temperature;
                             Lit "°C, Humidity="; Num humidity; Lit "%" ];
                    hd_sensorData :=
                      Some {| snap_co2 := Some co2;
                              snap_temperature := Some temperature;
                              snap_humidity := Some humidity |} |} in
             let* _ := broadcast env hazard in
             let* hazardId := hazard_id_of hazard in
             ret {| body :=
                      sensor_hazard hazard_type severity hazardId
                        (detected ++ " detected!");
                    status_code := 201 |}
         | None =>
             ret {| body :=
                      sensor_normal
                        "Sensor data logged. All readings normal.";
                    status_code := 200 |}
         end
     end)
    (fun e => ret {| body := error_exception e; status_code := 500 |}).

End Routes.

(** ** routes/hazards.py: the other endpoints *)

Module HazardRoutes.

Inductive Payload : Type :=
| reported (hazardId message : string)
| one_hazard (hazard : HazardRecord)
| hazard_list (hazards : list HazardRecord)
| error_text (text : string)
| error_of (e : exn).

(** [jsonify(payload), code] *)
Record Reply : Type := mkReply
  { payload : Payload; code : Z }.

(** The JSON body of a hazard report; [None] is an absent key. *)
Record ReportData : Type := mkReportData
  { rp_type : option string;
    rp_severity : option string;
    rp_location : option LocationDoc;
    rp_worker : option string;
    rp_description : option string }.

(** [not data.get(key)] for a string field: absent or empty. *)
Definition falsy (field : option string) : bool :=
  match field with
  | Some text => String.eqb text ""
  | None => true
  end.

Definition text_pieces (text : string) : list piece :=
  if String.eqb text "" then [] else [Lit text].

(** POST /hazard-reports.  The dictionary handed to [create_hazard] always
    has the key 'location', with [data.get('location')] as its value: for a
    report without location the value is [None], and [create_hazard] raises
    [AttributeError] at [.get('lat')] while it builds the document, before
    any insert. *)
Definition report_hazard
    (new_oid : string) (utcnow : Z) (request_json : option ReportData)
    : M Reply :=
  try_except
    (match request_json with
     | None => raise AttributeError
     | Some data =>
         if falsy (rp_type data) || falsy (rp_worker data)
         then ret {| payload := error_text "Missing required fields";
                     code := 400 |}
         else
           match rp_location data with
           | None => raise AttributeError
           | Some where_ =>
               let* hazard :=
                 HazardModel.create_hazard new_oid utcnow
                   {| hd_type := rp_type data;
                      hd_severity :=
                        Some (Some (get (rp_severity data) "medium"));
                      hd_location := Some where_;
                      hd_worker := rp_worker data;
                      hd_source := Some "WORKER";
                      hd_description :=
                        Some (text_pieces (get (rp_description data) ""));
                      hd_sensorData := None |} in
               let* hazardId := Routes.hazard_id_of hazard in
               ret {| payload :=
                        reported hazardId "Hazard reported successfully";
                      code := 201 |}
           end
     end)
    (fun e => ret {| payload := error_of e; code := 500 |}).

(** GET /hazards *)
Definition get_hazards : M Reply :=
  try_except
    (let* hazards := HazardModel.get_all_hazards 50 in
     ret {| payload := hazard_list hazards; code := 200 |})
    (fun e => ret {| payload := error_of e; code := 500 |}).

(** GET /hazards/active *)
Definition get_active_hazards : M Reply :=
  try_except
    (let* hazards := HazardModel.get_active_hazards in
     ret {| payload := hazard_list hazards; code := 200 |})
    (fun e => ret {| payload := error_of e; code := 500 |}).

(** GET /hazards/<hazard_id> *)
Definition get_hazard (hazard_id : string) : M Reply :=
  try_except
    (let* hazard := HazardModel.get_hazard_by_id hazard_id in
     match hazard with
     | None => ret {| payload := error_text "Hazard not found"; code := 404 |}
     | Some record => ret {| payload := one_hazard record; code := 200 |}
     end)
    (fun e => ret {| payload := error_of e; code := 500 |}).

(** GET /hazards/worker/<worker_id> *)
Definition get_worker_hazards (worker_id : string) : M Reply :=
  try_except
    (let* hazards := HazardModel.get_hazards_by_worker worker_id in
     ret {| payload := hazard_list hazards; code := 200 |})
    (fun e => ret {| payload := error_of e; code := 500 |}).

End HazardRoutes.

(** ** Vocabulary of the statements *)

(** Squared distance of a worker from the hazard origin, with the defaults
    of [worker.get('lat', 0)] and [worker.get('lng', 0)]. *)
Definition worker_distance_squared (hazard : Hazard) (worker : Worker) : Q :=
  distance_squared
    (get (w_lat worker) 0%Q) (get (w_lng worker) 0%Q)
    (lat (location hazard)) (lng (location hazard)).

(** The worker's distance from the hazard origin is at most the radius of
    the zone. *)
Definition inside
    (hazard : Hazard) (zone : DangerZone) (worker : Worker) : bool :=
  sqrt_le_bool (worker_distance_squared hazard worker) (radius zone).

(** The record appended for a worker found in the zone of level [lvl]. *)
Definition entry
    (hazard : Hazard) (hazard_type lvl : string) (worker : Worker)
    : AffectedWorker :=
  {| worker_id := w_id worker;
     name := w_name worker;
     role := w_role worker;
     worker_sector := w_sector worker;
     distance_from_hazard :=
       round_sqrt_4 (worker_distance_squared hazard worker);
     recommended_action := get_action lvl hazard_type |}.

(** The dictionary [{'critical': c, 'high': h, 'medium': m}]. *)
Definition buckets (c h m : list AffectedWorker)
    : gmap string (list AffectedWorker) :=
  list_to_map [ ("critical", c); ("high", h); ("medium", m) ].

(** ** Sample data *)

(** The worker list of [routes/hazards.py]. *)
Definition MOCK_WORKERS : list Worker :=
  [ {| w_id := Some "W001"; w_name := Some "John Smith";
       w_role := Some "Miner"; w_sector := Some "A";
       w_lat := Some 23.0455%Q; w_lng := Some 81.3240%Q |};
    {| w_id := Some "W002"; w_name := Some "Mike Johnson";
       w_role := Some "Driller"; w_sector := Some "B";
       w_lat := Some 23.0480%Q; w_lng := Some 81.3275%Q |};
    {| w_id := Some "W003"; w_name := Some "Sarah Williams";
       w_role := Some "Engineer"; w_sector := Some "A";
       w_lat := Some 23.0425%Q; w_lng := Some 81.3260%Q |};
    {| w_id := Some "W004"; w_name := Some "Tom Brown";
       w_role := Some "Supervisor"; w_sector := Some "C";
       w_lat := Some 23.0465%Q; w_lng := Some 81.3250%Q |} ].

(** A fire reported where worker W001 stands. *)
Definition fire_at_W001 : Hazard :=
  {| type := Some "Fire";
     location := {| lat := 23.0455; lng := 81.3240; sector := "A" |} |}.


(** A stored hazard, still pending, and a world that holds only it. *)
Definition pending_gas_leak : HazardDoc :=
  {| doc_type := Some "Gas Leak";
     doc_severity := Some "high";
     doc_location :=
       {| loc_lat := Some 23.045%Q; loc_lng := Some 81.325%Q;
          loc_sector := Some "A" |};
     doc_worker := Some "W001";
     doc_source := "WORKER";
     doc_timestamp := 1700000000;
     doc_status := "pending";
     doc_description := [Lit "High methane levels"];
     doc_sensorData := mkSensorSnapshot None None None |}.

Definition one_hazard_world : World :=
  {| hazards_collection :=
       {[ "64b7f0c2a1d3e4f5a6b7c8d9" := pending_gas_leak ]};
     sensors_collection := ∅;
     delivered := [] |}.

Definition empty_world : World :=
  {| hazards_collection := ∅; sensors_collection := ∅; delivered := [] |}.

(** A request environment whose socket raises on every emit. *)
Definition failing_socket_env : Routes.Env :=
  {| Routes.reading_oid := "64b7f0c2a1d3e4f5a6b7c8da";
     Routes.reading_time := 1700000100;
     Routes.hazard_oid := "64b7f0c2a1d3e4f5a6b7c8db";
     Routes.hazard_time := 1700000101;
     Routes.socketio := Some (fun _ => Some (RuntimeError "emit failed")) |}.

Definition gas_reading : SensorData :=
  {| sd_workerId := Some "SENSOR_01";
     sd_co2 := Some 1500%Q;
     sd_temperature := Some 60%Q;
     sd_humidity := Some 10%Q;
     sd_location :=
       Some {| loc_lat := Some 23.045%Q; loc_lng := Some 81.325%Q;
               loc_sector := Some "A" |} |}.

(** A complete worker report, a reading without any value, and a request
    environment whose socket accepts every emit. *)
Definition complete_report : HazardRoutes.ReportData :=
  {| HazardRoutes.rp_type := Some "Rock Fall";
     HazardRoutes.rp_severity := None;
     HazardRoutes.rp_location :=
       Some {| loc_lat := Some 23.045%Q; loc_lng := Some 81.325%Q;
               loc_sector := Some "B" |};
     HazardRoutes.rp_worker := Some "W002";
     HazardRoutes.rp_description := Some "Loose rock above tunnel 1" |}.

Definition empty_reading : SensorData :=
  {| sd_workerId := None;
     sd_co2 := None;
     sd_temperature := None;
     sd_humidity := None;
     sd_location := None |}.

Definition working_socket_env : Routes.Env :=
  {| Routes.reading_oid := "64b7f0c2a1d3e4f5a6b7c8da";
     Routes.reading_time := 1700000100;
     Routes.hazard_oid := "64b7f0c2a1d3e4f5a6b7c8db";
     Routes.hazard_time := 1700000101;
     Routes.socketio := Some (fun _ => None) |}.

(** A world whose only hazard is resolved. *)
Definition resolved_hazard_world : World :=
  {| hazards_collection :=
       {[ "64b7f0c2a1d3e4f5a6b7c8d9"
          := set_status "resolved" pending_gas_leak ]};
     sensors_collection := ∅;
     delivered := [] |}.

(** ** Vocabulary of the binary64 statements *)

Section Distance.

Variable square : spec_float -> spec_float.

(** The Euclidean distance of a worker from the hazard origin,
    [sqrt((x - x0)^2 + (y - y0)^2)] with the worker's coordinates
    defaulting to 0, in Python's arithmetic. *)
Definition euclidean_distance
    (hazard : Binary64.Hazard) (worker : Binary64.Worker)
    : result spec_float :=
  let x := get (Binary64.w_lat worker) (Binary64.PyInt 0) in
  let y := get (Binary64.w_lng worker) (Binary64.PyInt 0) in
  let x0 := Binary64.lat (Binary64.location hazard) in
  let y0 := Binary64.lng (Binary64.location hazard) in
  do dx <- Binary64.sub x x0;
  do dy <- Binary64.sub y y0;
  do dx2 <- Binary64.pow2 square dx;
  do dy2 <- Binary64.pow2 square dy;
  do sum <- Binary64.add dx2 dy2;
  Binary64.math_sqrt sum.

End Distance.

(** The record of a worker at distance [d] in the bucket of level [lvl] *)
Definition affected_record
    (hazard_type lvl : string) (d : spec_float) (worker : Binary64.Worker)
    : Binary64.AffectedWorker :=
  {| Binary64.worker_id := Binary64.w_id worker;
     Binary64.name := Binary64.w_name worker;
     Binary64.role := Binary64.w_role worker;
     Binary64.worker_sector := Binary64.w_sector worker;
     Binary64.distance_from_hazard := Binary64.round_4 d;
     Binary64.recommended_action := get_action lvl hazard_type |}.

(** The worker's distance is at most the radius of the zone. *)
Definition within
    (distance : Binary64.Worker -> spec_float) (zone : Binary64.DangerZone)
    (worker : Binary64.Worker) : bool :=
  SFleb (distance worker) (Binary64.radius zone).

(** The zone of level [lvl] is the first zone of [critical; high; medium]
    that the worker is within. *)
Definition first_within
    (distance : Binary64.Worker -> spec_float)
    (critical high medium : Binary64.DangerZone) (lvl : string)
    (worker : Binary64.Worker) : bool :=
  if String.eqb lvl "critical" then within distance critical worker
  else if String.eqb lvl "high" then
    negb (within distance critical worker) && within distance high worker
  else if String.eqb lvl "medium" then
    negb (within distance critical worker)
    && negb (within distance high worker)
    && within distance medium worker
  else false.

(** The dictionary [{'critical': c, 'high': h, 'medium': m}] *)
Definition severity_buckets (c h m : list Binary64.AffectedWorker)
    : gmap string (list Binary64.AffectedWorker) :=
  list_to_map [ ("critical", c); ("high", h); ("medium", m) ].



(** A float that is a zero, an infinity or finite, of sign [s]: any float
    but NaN, with its sign bit. *)
Definition signed (s : bool) (x : spec_float) : Prop :=
  x = S754_zero s \/ x = S754_infinity s
  \/ exists m e, x = S754_finite s m e.

(** [elapsed < 0], [elapsed > 0], [elapsed == 0] and [max(elapsed, 0)] *)
Definition is_negative (elapsed : Binary64.number) : bool :=
  match elapsed with
  | Binary64.PyInt n => (n <? 0)%Z
  | Binary64.PyFloat x => SFltb x Binary64.zero
  end.

Definition is_positive (elapsed : Binary64.number) : bool :=
  match elapsed with
  | Binary64.PyInt n => (0 <? n)%Z
  | Binary64.PyFloat x => SFltb Binary64.zero x
  end.


Definition clamp (elapsed : Binary64.number) : Binary64.number :=
  if is_negative elapsed then Binary64.PyInt 0 else elapsed.

(** An elapsed time of at least one second: a whole number from 1 up to
    [2^1023], or a finite float [x >= 1]. *)
Definition at_least_one_second (elapsed : Binary64.number) : Prop :=
  match elapsed with
  | Binary64.PyInt n => (1 <= n < 2 ^ 1023)%Z
  | Binary64.PyFloat x =>
      valid_binary prec emax x = true
      /\ Binary64.is_finite x = true
      /\ SFleb Binary64.one x = true
  end.

(** An elapsed time of at most minus one second *)
Definition at_most_minus_one_second (elapsed : Binary64.number) : Prop :=
  match elapsed with
  | Binary64.PyInt n => (- 2 ^ 1023 < n <= -1)%Z
  | Binary64.PyFloat x =>
      valid_binary prec emax x = true
      /\ Binary64.is_finite x = true
      /\ SFleb x (SFopp Binary64.one) = true
  end.

(** [len(affected['critical']) + len(affected['high']) +
    len(affected['medium'])] *)
Definition affected_count
    (affected : gmap string (list Binary64.AffectedWorker)) : nat :=
  (List.length (get (affected !! "critical") [])
   + List.length (get (affected !! "high") [])
   + List.length (get (affected !! "medium") []))%nat.

(** ** Sample data in binary64 *)

Definition gas_leak_64 : Binary64.Hazard :=
  {| Binary64.type := Some "Gas Leak";
     Binary64.location :=
       {| Binary64.lat := Binary64.PyFloat Binary64.zero;
          Binary64.lng := Binary64.PyFloat Binary64.zero;
          Binary64.sector := "A" |} |}.

Definition coordinate (digits : positive) : option Binary64.number :=
  Some (Binary64.PyFloat (Binary64.float_literal digits 10000)).

(** The worker list of [routes/hazards.py] *)
Definition MOCK_WORKERS_64 : list Binary64.Worker :=
  [ {| Binary64.w_id := Some "W001"; Binary64.w_name := Some "John Smith";
       Binary64.w_role := Some "Miner"; Binary64.w_sector := Some "A";
       Binary64.w_lat := coordinate 230455;
       Binary64.w_lng := coordinate 813240 |};
    {| Binary64.w_id := Some "W002"; Binary64.w_name := Some "Mike Johnson";
       Binary64.w_role := Some "Driller"; Binary64.w_sector := Some "B";
       Binary64.w_lat := coordinate 230480;
       Binary64.w_lng := coordinate 813275 |};
    {| Binary64.w_id := Some "W003"; Binary64.w_name := Some "Sarah Williams";
       Binary64.w_role := Some "Engineer"; Binary64.w_sector := Some "A";
       Binary64.w_lat := coordinate 230425;
       Binary64.w_lng := coordinate 813260 |};
    {| Binary64.w_id := Some "W004"; Binary64.w_name := Some "Tom Brown";
       Binary64.w_role := Some "Supervisor"; Binary64.w_sector := Some "C";
       Binary64.w_lat := coordinate 230465;
       Binary64.w_lng := coordinate 813250 |} ].

(** The distance of a worker from a hazard on a platform with a correctly
    rounded square, NaN where the computation raises *)
Definition measured
    (hazard : Binary64.Hazard) (worker : Binary64.Worker) : spec_float :=
  match
    euclidean_distance Binary64.correctly_rounded_square hazard worker
  with
  | Ok d => d
  | Raise _ => S754_nan
  end.

(** A fire reported where worker W001 stands *)
Definition fire_at_W001_64 : Binary64.Hazard :=
  {| Binary64.type := Some "Fire";
     Binary64.location :=
       {| Binary64.lat := Binary64.PyFloat (Binary64.float_literal 230455 10000);
          Binary64.lng := Binary64.PyFloat (Binary64.float_literal 813240 10000);
          Binary64.sector := "A" |} |}.

(** * Properties *)

(** ** Comparisons on rationals *)

Lemma Qlt_bool_iff (x y : Q) : Qlt_bool x y = true <-> (x < y)%Q.
Proof.
  unfold Qlt_bool. rewrite negb_true_iff, <- not_true_iff_false, Qle_bool_iff.
  split; [apply Qnot_le_lt | apply Qlt_not_le].
Qed.

Lemma Qgt_bool_iff (x y : Q) : Qgt_bool x y = true <-> (y < x)%Q.
Proof. apply Qlt_bool_iff. Qed.

Lemma Qlt_bool_false_iff (x y : Q) : Qlt_bool x y = false <-> (y <= x)%Q.
Proof.
  unfold Qlt_bool. rewrite negb_false_iff. apply Qle_bool_iff.
Qed.

Lemma Qle_bool_false_iff (x y : Q) : Qle_bool x y = false <-> (y < x)%Q.
Proof.
  rewrite <- not_true_iff_false, Qle_bool_iff.
  split; [apply Qnot_le_lt | apply Qlt_not_le].
Qed.

(** ** Sensor classifier *)

Example classify_normal :
  detect_hazard_from_sensors 450 28.5 65 = (None, None).
Proof. reflexivity. Qed.

Lemma detect_gas_leak_iff (co2 temperature humidity : Q) :
  fst (detect_hazard_from_sensors co2 temperature humidity) = Some "Gas Leak"
  <-> (1000 < co2)%Q.
Proof.
  unfold detect_hazard_from_sensors.
  destruct (Qgt_bool co2 1000) eqn:Hgas.
  - apply Qgt_bool_iff in Hgas. simpl. tauto.
  - apply Qlt_bool_false_iff in Hgas.
    split.
    + repeat match goal with
             | |- context [if ?b then _ else _] => destruct b
             end; simpl; discriminate.
    + intros H. exfalso. lra.
Qed.



(** C7: the gas thresholds are strict.  With co2 exactly 1000 the gas
    branch is not taken, whatever the other readings; co2=1001 gives
    (Gas Leak, high) and co2=2001 gives (Gas Leak, critical), whatever the
    other readings; and the result is (High CO2 Levels, medium) exactly when
    800 < co2 <= 1000 and neither the fire test (temperature > 40) nor the
    humidity test (humidity < 20) holds, the gas test failing as
    co2 <= 1000. *)
Theorem classifier_gas_thresholds_strict :
  (forall temperature humidity,
      fst (detect_hazard_from_sensors 1000 temperature humidity)
      <> Some "Gas Leak")
  /\ (forall temperature humidity,
        detect_hazard_from_sensors 1001 temperature humidity
        = (Some "Gas Leak", Some "high"))
  /\ (forall temperature humidity,
        detect_hazard_from_sensors 2001 temperature humidity
        = (Some "Gas Leak", Some "critical"))
  /\ (forall co2 temperature humidity,
        detect_hazard_from_sensors co2 temperature humidity
        = (Some "High CO2 Levels", Some "medium")
        <-> (800 < co2 /\ co2 <= 1000)%Q
            /\ ~ (1000 < co2)%Q
            /\ ~ (40 < temperature)%Q
            /\ ~ (humidity < 20)%Q).
Proof.
  split; [| split; [| split]].
  - intros temperature humidity H.
    apply detect_gas_leak_iff in H. lra.
  - reflexivity.
  - reflexivity.
  - intros co2 temperature humidity.
    unfold detect_hazard_from_sensors.
    destruct (Qgt_bool co2 1000) eqn:Hgas;
      [apply Qgt_bool_iff in Hgas | apply Qlt_bool_false_iff in Hgas].
    { split; [destruct (Qgt_bool co2 2000); discriminate | intros; lra]. }
    destruct (Qgt_bool temperature 40) eqn:Hfire;
      [apply Qgt_bool_iff in Hfire | apply Qlt_bool_false_iff in Hfire].
    { split; [destruct (Qgt_bool temperature 55); discriminate | intros; lra]. }
    destruct (Qlt_bool humidity 20) eqn:Hhum;
      [apply Qlt_bool_iff in Hhum | apply Qlt_bool_false_iff in Hhum].
    { split; [discriminate | intros; lra]. }
    destruct (Qlt_bool 800 co2) eqn:Hlo;
      [apply Qlt_bool_iff in Hlo | apply Qlt_bool_false_iff in Hlo];
      destruct (Qle_bool co2 1000) eqn:Hhi;
      try apply Qle_bool_iff in Hhi; try apply Qle_bool_false_iff in Hhi;
      simpl;
      (split;
       [try discriminate; intros _; lra | intros; try reflexivity; lra]).
Qed.

(** ** Route advisor *)

(** C9: for sector B the direction is "Move to Sector A via Tunnel 1"; for
    every sector, every hazard location and every worker location the
    priority is CRITICAL and the estimated time is 2 minutes; a sector other
    than A, B and C gets the generic direction. *)
Theorem evacuation_route_constants :
  forall (HL WL : Type) (hazard_location : HL) (worker_location : WL),
    direction (get_evacuation_route hazard_location worker_location "B")
    = "Move to Sector A via Tunnel 1"
    /\ forall sector : string,
        priority (get_evacuation_route hazard_location worker_location sector)
        = "CRITICAL"
        /\ estimated_time_minutes
             (get_evacuation_route hazard_location worker_location sector)
           = 2%Z
        /\ (sector <> "A" -> sector <> "B" -> sector <> "C" ->
            direction
              (get_evacuation_route hazard_location worker_location sector)
            = "Exit to safe zone away from hazard").
Proof.
  intros HL WL hazard_location worker_location.
  split; [reflexivity |].
  intros sector. split; [reflexivity |]. split; [reflexivity |].
  intros HA HB HC. unfold get_evacuation_route. simpl.
  apply String.eqb_neq in HA, HB, HC. rewrite HA, HB, HC. reflexivity.
Qed.

Lemma evacuation_route_constants_witness :
  direction (get_evacuation_route (23.045, 81.325)%Q (23.0455, 81.324)%Q "D")
  = "Exit to safe zone away from hazard".
Proof.
  apply (evacuation_route_constants _ _ (23.045, 81.325)%Q (23.0455, 81.324)%Q);
    discriminate.
Defined.

(** ** Spread model *)

Lemma SPREAD_RATES_positive (hazard_type : string) (rate : Q) :
  SPREAD_RATES !! hazard_type = Some rate -> (0 < rate)%Q.
Proof.
  intros H. apply (elem_of_list_to_map_2 (M := gmap string)) in H.
  repeat match goal with
         | H : _ ∈ _ :: _ |- _ =>
             apply elem_of_cons in H; destruct H as [H | H]
         | H : _ ∈ [] |- _ => apply elem_of_nil in H; contradiction
         | H : (_, _) = (_, _) |- _ => injection H as _ ->
         end; reflexivity.
Qed.

Lemma spread_rate_positive (hazard : Hazard) : (0 < spread_rate_of hazard)%Q.
Proof.
  unfold spread_rate_of.
  destruct (SPREAD_RATES !! get (type hazard) "Gas Leak") as [rate |] eqn:H.
  - simpl. eapply SPREAD_RATES_positive, H.
  - reflexivity.
Qed.

(** C10: the type string the classifier emits for the High CO2 condition,
    'High CO2 Levels', is not a key of the spread-rate table, so the rate is
    the default 0.002, which is the Gas Leak rate; hence at every elapsed
    time a 'High CO2 Levels' hazard has the danger zones of a 'Gas Leak'
    hazard at the same place. *)
Theorem high_co2_zones_equal_gas_leak_zones :
  detect_hazard_from_sensors 900 25 60
  = (Some "High CO2 Levels", Some "medium")
  /\ SPREAD_RATES !! "High CO2 Levels" = None
  /\ SPREAD_RATES !! "Gas Leak" = Some 0.002%Q
  /\ forall (where_ : Location) (t : Q),
      spread_rate_of {| type := Some "High CO2 Levels"; location := where_ |}
      = 0.002%Q
      /\ calculate_danger_zones
           {| type := Some "High CO2 Levels"; location := where_ |} t
         = calculate_danger_zones
             {| type := Some "Gas Leak"; location := where_ |} t.
Proof.
  split; [reflexivity |].
  split; [reflexivity |].
  split; [reflexivity |].
  intros where_ t. split; reflexivity.
Qed.

(** ** Exposure evaluator *)

Lemma buckets_lookup (c h m bucket : list AffectedWorker) (lvl : string) :
  buckets c h m !! lvl = Some bucket ->
  (lvl = "critical" /\ bucket = c)
  \/ (lvl = "high" /\ bucket = h)
  \/ (lvl = "medium" /\ bucket = m).
Proof.
  intros H. apply (elem_of_list_to_map_2 (M := gmap string)) in H.
  repeat match goal with
         | H : _ ∈ _ :: _ |- _ =>
             apply elem_of_cons in H; destruct H as [H | H]
         | H : _ ∈ [] |- _ => apply elem_of_nil in H; contradiction
         | H : (_, _) = (_, _) |- _ => injection H as -> ->
         end; tauto.
Qed.

Section Exposure.

Variables (hazard : Hazard) (hazard_type : string) (t : Q).
Hypothesis has_type : type hazard = Some hazard_type.

Let rate := spread_rate_of hazard.
Let critical : DangerZone :=
  mkDangerZone "critical" (t * rate * 0.33)%Q "#ef4444" "critical" 1.
Let high : DangerZone :=
  mkDangerZone "high" (t * rate * 0.67)%Q "#f97316" "high" 3.
Let medium : DangerZone :=
  mkDangerZone "medium" (t * rate)%Q "#eab308" "medium" 5.

Let in_critical (w : Worker) : bool := inside hazard critical w.
Let in_high (w : Worker) : bool :=
  negb (inside hazard critical w) && inside hazard high w.
Let in_medium (w : Worker) : bool :=
  negb (inside hazard critical w) && negb (inside hazard high w)
  && inside hazard medium w.

Let part (b : bool) (lvl : string) (w : Worker) : list AffectedWorker :=
  if b then [entry hazard hazard_type lvl w] else [].

Lemma visit_worker_buckets (c h m : list AffectedWorker) (w : Worker) :
  visit_worker hazard (calculate_danger_zones hazard t) (buckets c h m) w
  = Ok (buckets (c ++ part (in_critical w) "critical" w)
                (h ++ part (in_high w) "high" w)
                (m ++ part (in_medium w) "medium" w)).
Proof.
  unfold visit_worker, calculate_danger_zones, in_critical, in_high,
    in_medium, inside, worker_distance_squared, part.
  fold rate. cbn [find radius critical high medium].
  rewrite has_type.
  destruct (sqrt_le_bool _ (t * rate * 0.33)); cbn [negb andb];
    [| destruct (sqrt_le_bool _ (t * rate * 0.67)); cbn [negb andb];
       [| destruct (sqrt_le_bool _ (t * rate)) ] ];
    rewrite ?app_nil_r; reflexivity.
Qed.

Lemma for_workers_buckets (workers : list Worker) :
  forall c h m : list AffectedWorker,
    for_workers hazard (calculate_danger_zones hazard t) workers
      (buckets c h m)
    = Ok (buckets
            (c ++ map (entry hazard hazard_type "critical")
                   (List.filter in_critical workers))
            (h ++ map (entry hazard hazard_type "high")
                   (List.filter in_high workers))
            (m ++ map (entry hazard hazard_type "medium")
                   (List.filter in_medium workers))).
Proof.
  induction workers as [| w workers IH]; intros c h m.
  - cbn [for_workers List.filter map]. rewrite !app_nil_r. reflexivity.
  - cbn [for_workers]. rewrite visit_worker_buckets. cbn [bind].
    rewrite IH. cbn [List.filter]. unfold part.
    destruct (in_critical w), (in_high w), (in_medium w); cbn [map];
      rewrite <- ?app_assoc; reflexivity.
Qed.

End Exposure.

Lemma NoDup_map_injective {A B : Type} (f : A -> B) (l : list A) (x y : A) :
  NoDup (map f l) -> In x l -> In y l -> f x = f y -> x = y.
Proof.
  induction l as [| a l IH]; cbn [map]; intros Hnd Hx Hy Hf.
  - destruct Hx.
  - inversion Hnd as [| b l' Hnotin Hnd']; subst.
    rewrite list_elem_of_In, in_map_iff in Hnotin.
    destruct Hx as [-> | Hx], Hy as [-> | Hy].
    + reflexivity.
    + exfalso. apply Hnotin. exists y. auto.
    + exfalso. apply Hnotin. exists x. auto.
    + apply IH; assumption.
Qed.

Lemma get_affected_workers_buckets
    (hazard : Hazard) (hazard_type : string) (workers : list Worker) (t : Q) :
  type hazard = Some hazard_type ->
  exists critical high medium,
    calculate_danger_zones hazard t = [critical; high; medium]
    /\ get_affected_workers hazard workers t
       = Ok (buckets
               (map (entry hazard hazard_type "critical")
                  (List.filter (inside hazard critical) workers))
               (map (entry hazard hazard_type "high")
                  (List.filter
                     (fun w => negb (inside hazard critical w)
                               && inside hazard high w) workers))
               (map (entry hazard hazard_type "medium")
                  (List.filter
                     (fun w => negb (inside hazard critical w)
                               && negb (inside hazard high w)
                               && inside hazard medium w) workers)))
    /\ (0 <= t -> 0 <= radius critical)%Q.
Proof.
  intros Htype. unfold get_affected_workers.
  change empty_affected with (buckets [] [] []).
  rewrite (for_workers_buckets hazard hazard_type t Htype workers [] [] []).
  do 3 eexists. split; [reflexivity |]. split; [reflexivity |].
  intros Ht. cbn [radius].
  pose proof (spread_rate_positive hazard). nra.
Qed.


(** ** Frame generator *)




(** The step is computed as CPython computes it: in binary64
    [1 / (1 / 93)] is just below 93 and truncates to 92. *)
Example frame_step_examples :
  frame_step 1 = Ok 1%Z
  /\ frame_step 49 = Ok 49%Z
  /\ frame_step 93 = Ok 92%Z
  /\ frame_step (-2) = Ok (-2)%Z
  /\ frame_step 0 = Raise ZeroDivisionError.
Proof. repeat split. Qed.

Example range_examples :
  range 0 10 3 = Ok [0; 3; 6; 9]%Z
  /\ range 0 30 (-2) = Ok []
  /\ range 0 (-10) (-3) = Ok [0; -3; -6; -9]%Z
  /\ range 0 30 0 = Raise ValueError.
Proof. repeat split. Qed.



(** ** Status update *)

Lemma valid_status_iff (status : string) :
  existsb (String.eqb status) Routes.valid_statuses = true
  <-> In status Routes.valid_statuses.
Proof.
  rewrite existsb_exists. split.
  - intros (s & Hin & Heq). apply String.eqb_eq in Heq. congruence.
  - intros Hin. exists status. split; [exact Hin | apply String.eqb_refl].
Qed.

(** X24: a status outside the four literals (or no status at all) is
    refused with 400 before any lookup, whatever the id, and nothing is
    written. *)
Lemma update_status_invalid
    (hazard_id : string) (status : option string) (w : World) :
  (forall s, status = Some s -> ~ In s Routes.valid_statuses) ->
  Routes.update_hazard_status hazard_id
    (Some {| Routes.rq_status := status |}) w
  = (Ok {| Routes.body := Routes.error_message "Invalid status";
           Routes.status_code := 400 |}, w).
Proof.
  intros Hinvalid. unfold Routes.update_hazard_status, try_except.
  cbn [Routes.rq_status].
  destruct status as [s |]; [| reflexivity].
  destruct (existsb (String.eqb s) Routes.valid_statuses) eqn:Hvalid.
  - apply valid_status_iff in Hvalid. destruct (Hinvalid s eq_refl Hvalid).
  - reflexivity.
Qed.

(** A well-formed id that matches no hazard gives 404. *)
Lemma update_status_unknown_id
    (hazard_id oid status : string) (w : World) :
  In status Routes.valid_statuses ->
  ObjectId hazard_id = Ok oid ->
  hazards_collection w !! oid = None ->
  Routes.update_hazard_status hazard_id
    (Some {| Routes.rq_status := Some status |}) w
  = (Ok {| Routes.body := Routes.error_message "Hazard not found";
           Routes.status_code := 404 |}, w).
Proof.
  intros Hvalid Hid Hnone. apply valid_status_iff in Hvalid.
  unfold Routes.update_hazard_status, try_except. cbn [Routes.rq_status].
  rewrite Hvalid. cbn [negb].
  unfold HazardModel.update_hazard_status, bindM, lift, update_one_status.
  rewrite Hid, Hnone. reflexivity.
Qed.

(** With a valid status, an id that [ObjectId] rejects gives 500
    (InvalidId through the generic handler), not 404, and nothing is
    written. *)
Lemma update_status_malformed_id
    (hazard_id status : string) (w : World) :
  In status Routes.valid_statuses ->
  ObjectId hazard_id = Raise InvalidId ->
  Routes.update_hazard_status hazard_id
    (Some {| Routes.rq_status := Some status |}) w
  = (Ok {| Routes.body := Routes.error_exception InvalidId;
           Routes.status_code := 500 |}, w).
Proof.
  intros Hvalid Hid. apply valid_status_iff in Hvalid.
  unfold Routes.update_hazard_status, try_except. cbn [Routes.rq_status].
  rewrite Hvalid. cbn [negb].
  unfold HazardModel.update_hazard_status, bindM, lift.
  rewrite Hid. reflexivity.
Qed.

Lemma ObjectId_idempotent (s oid : string) :
  ObjectId s = Ok oid -> ObjectId oid = Ok oid.
Proof.
  unfold ObjectId.
  destruct ((String.length s =? 24)%nat && string_forall is_hex_digit s)
    eqn:Hs; [| discriminate].
  intros [= <-]. apply andb_true_iff in Hs. destruct Hs as [Hlen Hhex].
  assert (Hmap : forall u,
             string_forall is_hex_digit u = true ->
             String.length (string_map lower_hex u) = String.length u
             /\ string_forall is_hex_digit (string_map lower_hex u) = true
             /\ string_map lower_hex (string_map lower_hex u)
                = string_map lower_hex u).
  { induction u as [| c u IH]; cbn [string_forall string_map String.length].
    - intros _. repeat split.
    - intros Hc. apply andb_true_iff in Hc. destruct Hc as [Hc Hu].
      destruct (IH Hu) as (Hl & Hf & Hm). rewrite Hl, Hf, Hm.
      assert (is_hex_digit (lower_hex c) = true
              /\ lower_hex (lower_hex c) = lower_hex c) as [-> ->].
      { clear -Hc. revert Hc.
        destruct c as [[] [] [] [] [] [] [] []]; vm_compute;
          intros; try discriminate; split; reflexivity. }
      repeat split. }
  destruct (Hmap s Hhex) as (-> & -> & ->). rewrite Hlen. reflexivity.
Qed.

(** An existing hazard and a valid status other than its current one: the
    status is stored and the updated record returned with 200. *)
Lemma update_status_changed
    (hazard_id oid status : string) (doc : HazardDoc) (w : World) :
  In status Routes.valid_statuses ->
  ObjectId hazard_id = Ok oid ->
  hazards_collection w !! oid = Some doc ->
  doc_status doc <> status ->
  Routes.update_hazard_status hazard_id
    (Some {| Routes.rq_status := Some status |}) w
  = (Ok {| Routes.body :=
             Routes.hazard_updated
               {| _id := oid; fields := set_status status doc |}
               ("Hazard status updated to " ++ status);
           Routes.status_code := 200 |},
     {| hazards_collection :=
          <[oid := set_status status doc]> (hazards_collection w);
        sensors_collection := sensors_collection w;
        delivered := delivered w |}).
Proof.
  intros Hvalid Hid Hdoc Hne. apply valid_status_iff in Hvalid.
  unfold Routes.update_hazard_status, try_except. cbn [Routes.rq_status].
  rewrite Hvalid. cbn [negb].
  unfold HazardModel.update_hazard_status, HazardModel.get_hazard_by_id,
    bindM, lift, update_one_status, find_one_hazard, ret.
  rewrite Hid, Hdoc.
  apply String.eqb_neq in Hne. rewrite Hne.
  cbn [modified_count Z.gtb Z.compare hazards_collection].
  rewrite lookup_insert_eq. reflexivity.
Qed.

(** C6, evaluated on the code where it departs from the claim: for an
    existing hazard and a valid status literal equal to the status the
    hazard already has, the operation answers 404 "Hazard not found" and
    returns no record.  The model reports a hazard only when
    [modified_count > 0], and an update that changes nothing matches the
    document without modifying it. *)
Theorem update_status_unchanged_reports_not_found
    (hazard_id oid status : string) (doc : HazardDoc) (w : World) :
  In status Routes.valid_statuses ->
  ObjectId hazard_id = Ok oid ->
  hazards_collection w !! oid = Some doc ->
  doc_status doc = status ->
  Routes.update_hazard_status hazard_id
    (Some {| Routes.rq_status := Some status |}) w
  = (Ok {| Routes.body := Routes.error_message "Hazard not found";
           Routes.status_code := 404 |}, w).
Proof.
  intros Hvalid Hid Hdoc Hsame. apply valid_status_iff in Hvalid.
  unfold Routes.update_hazard_status, try_except. cbn [Routes.rq_status].
  rewrite Hvalid. cbn [negb].
  unfold HazardModel.update_hazard_status, bindM, lift, update_one_status.
  rewrite Hid, Hdoc.
  apply String.eqb_eq in Hsame. rewrite Hsame. reflexivity.
Qed.

Lemma update_status_unchanged_reports_not_found_witness :
  Routes.update_hazard_status "64B7F0C2A1D3E4F5A6B7C8D9"
    (Some {| Routes.rq_status := Some "pending" |}) one_hazard_world
  = (Ok {| Routes.body := Routes.error_message "Hazard not found";
           Routes.status_code := 404 |}, one_hazard_world).
Proof.
  apply (update_status_unchanged_reports_not_found
           "64B7F0C2A1D3E4F5A6B7C8D9" "64b7f0c2a1d3e4f5a6b7c8d9" "pending"
           pending_gas_leak one_hazard_world).
  - left. reflexivity.
  - reflexivity.
  - reflexivity.
  - reflexivity.
Defined.

(** ** Sensor ingestion *)

(** The block [try: ... emit ... except Exception] always completes, and it
    touches neither collection. *)
Lemma broadcast_never_fails
    (env : Routes.Env) (hazard : option HazardRecord) (w : World) :
  exists events,
    Routes.broadcast env hazard w
    = (Ok tt,
       {| hazards_collection := hazards_collection w;
          sensors_collection := sensors_collection w;
          delivered := (delivered w ++ events)%list |})
    /\ (forall socket e,
          Routes.socketio env = Some socket ->
          socket (new_hazard hazard) = Some e -> events = []).
Proof.
  unfold Routes.broadcast, try_except, bindM, Routes.emit,
    Routes.hazard_id_of, ret, raise.
  destruct w as [hs ss ds].
  cbn [hazards_collection sensors_collection delivered].
  destruct (Routes.socketio env) as [socket |].
  - destruct (socket (new_hazard hazard)) as [e1 |] eqn:H1.
    + exists []. rewrite app_nil_r. split; [reflexivity | reflexivity].
    + destruct hazard as [record |];
        cbn [hazards_collection sensors_collection delivered].
      * destruct (socket (start_simulation (_id record))) as [e2 |].
        -- exists [new_hazard (Some record)].
           split; [reflexivity | intros s e [= <-]; congruence].
        -- exists [new_hazard (Some record); start_simulation (_id record)].
           rewrite <- app_assoc.
           split; [reflexivity | intros s e [= <-]; congruence].
      * exists [new_hazard None].
        split; [reflexivity | intros s e [= <-]; congruence].
  - exists []. rewrite app_nil_r. split; [reflexivity | discriminate].
Qed.

(** C8: when the classifier detects a hazard and the hazard is created, the
    endpoint answers 201 with the id of the created hazard, and the hazard
    is in the collection afterwards, whatever the socket does: absent,
    delivering, or raising on either emit.  When the first emit raises,
    nothing is delivered and the answer and the stored hazard are the
    same. *)
Theorem sensor_hazard_survives_broadcast_failure
    (env : Routes.Env) (data : SensorData) (w : World)
    (hazard_type severity : string) :
  detect_hazard_from_sensors
    (get (sd_co2 data) 400%Q) (get (sd_temperature data) 25%Q)
    (get (sd_humidity data) 60%Q)
  = (Some hazard_type, Some severity) ->
  sensors_collection w !! Routes.reading_oid env = None ->
  hazards_collection w !! Routes.hazard_oid env = None ->
  ObjectId (Routes.hazard_oid env) = Ok (Routes.hazard_oid env) ->
  exists doc w',
    Routes.receive_sensor_data env (Some data) w
    = (Ok {| Routes.body :=
               Routes.sensor_hazard (Some hazard_type) (Some severity)
                 (Routes.hazard_oid env) (hazard_type ++ " detected!");
             Routes.status_code := 201 |}, w')
    /\ hazards_collection w'
       = <[Routes.hazard_oid env := doc]> (hazards_collection w)
    /\ hazards_collection w' !! Routes.hazard_oid env = Some doc
    /\ doc_type doc = Some hazard_type
    /\ doc_severity doc = Some severity
    /\ doc_status doc = "pending"
    /\ doc_source doc = "IoT_SENSOR"
    /\ (forall socket e,
          Routes.socketio env = Some socket ->
          (forall event, socket event = Some e) ->
          delivered w' = delivered w).
Proof.
  intros Hdetect Hreading Hhazard Hoid.
  unfold Routes.receive_sensor_data, SensorModel.log_sensor_reading.
  unfold try_except at 1. unfold bindM at 1. unfold insert_reading at 1.
  rewrite Hreading, Hdetect.
  unfold bindM at 1.
  unfold HazardModel.create_hazard, HazardModel.get_hazard_by_id.
  unfold bindM at 1. unfold bindM at 1. unfold insert_hazard at 1.
  cbn [hazards_collection sensors_collection delivered].
  rewrite Hhazard.
  unfold bindM at 1. unfold lift at 1. rewrite Hoid.
  unfold bindM at 1. unfold find_one_hazard at 1.
  cbn [hazards_collection sensors_collection delivered].
  rewrite lookup_insert_eq. unfold ret at 1.
  unfold bindM at 1.
  match goal with
  | |- context [Routes.broadcast env ?hazard ?world] =>
      destruct (broadcast_never_fails env hazard world)
        as (events & Hemit & Hnone)
  end.
  rewrite Hemit. clear Hemit.
  cbn [hazards_collection sensors_collection delivered].
  unfold bindM, Routes.hazard_id_of, ret. cbn [_id].
  do 2 eexists. split; [reflexivity |].
  cbn [hazards_collection delivered].
  split; [reflexivity |].
  split; [apply lookup_insert_eq |].
  cbn [doc_type doc_severity doc_status doc_source get Store.hd_type
         Store.hd_severity Store.hd_source].
  do 4 (split; [reflexivity |]).
  intros socket e Hsocket Hraises.
  rewrite (Hnone socket e Hsocket (Hraises _)). apply app_nil_r.
Qed.

Lemma sensor_hazard_survives_broadcast_failure_witness :
  exists doc w',
    Routes.receive_sensor_data failing_socket_env (Some gas_reading)
      empty_world
    = (Ok {| Routes.body :=
               Routes.sensor_hazard (Some "Gas Leak") (Some "high")
                 "64b7f0c2a1d3e4f5a6b7c8db" "Gas Leak detected!";
             Routes.status_code := 201 |}, w')
    /\ hazards_collection w' !! "64b7f0c2a1d3e4f5a6b7c8db" = Some doc
    /\ delivered w' = [].
Proof.
  destruct (sensor_hazard_survives_broadcast_failure
              failing_socket_env gas_reading empty_world "Gas Leak" "high"
              eq_refl eq_refl eq_refl eq_refl)
    as (doc & w' & Hresponse & _ & Hstored & _ & _ & _ & _ & Hdelivered).
  exists doc, w'. split; [exact Hresponse |]. split; [exact Hstored |].
  apply (Hdelivered (fun _ => Some (RuntimeError "emit failed"))
           (RuntimeError "emit failed") eq_refl).
  intros event. reflexivity.
Defined.

(** * Further properties *)

(** ** Sensor classifier: the whole decision table *)




(** ** Spread model: growth and fallback *)

Lemma SPREAD_RATES_entries (hazard_type : string) (rate : Q) :
  SPREAD_RATES !! hazard_type = Some rate ->
  In (hazard_type, rate)
    [ ("Gas Leak", 0.002); ("Fire", 0.003); ("Rock Fall", 0.001);
      ("Poor Ventilation", 0.0015); ("Equipment Failure", 0.0008);
      ("SOS - EMERGENCY", 0.004) ]%Q.
Proof.
  intros H. apply (elem_of_list_to_map_2 (M := gmap string)) in H.
  apply list_elem_of_In in H. exact H.
Qed.

Lemma zones_depend_on_rate_only (hazard1 hazard2 : Hazard) (t : Q) :
  spread_rate_of hazard1 = spread_rate_of hazard2 ->
  calculate_danger_zones hazard1 t = calculate_danger_zones hazard2 t.
Proof. intros H. unfold calculate_danger_zones. rewrite H. reflexivity. Qed.



(** X3: a hazard whose type is none of the five other keys of the rate
    table (an unknown type, a type in another letter case, or no 'type' key
    at all) has at every time exactly the danger zones of a Gas Leak. *)
Theorem unlisted_type_spreads_like_gas_leak (hazard : Hazard) (t : Q) :
  (forall hazard_type,
      type hazard = Some hazard_type ->
      ~ In hazard_type
          [ "Fire"; "Rock Fall"; "Poor Ventilation"; "Equipment Failure";
            "SOS - EMERGENCY" ]) ->
  calculate_danger_zones hazard t
  = calculate_danger_zones
      {| type := Some "Gas Leak"; location := location hazard |} t.
Proof.
  intros Hunlisted. apply zones_depend_on_rate_only.
  unfold spread_rate_of at 1.
  destruct (type hazard) as [hazard_type |] eqn:Htype; [| reflexivity].
  cbn [get].
  destruct (SPREAD_RATES !! hazard_type) as [rate |] eqn:Hrate;
    [| reflexivity].
  apply SPREAD_RATES_entries in Hrate.
  destruct Hrate as [[= <- <-] | Hrate]; [reflexivity |].
  exfalso. apply (Hunlisted hazard_type eq_refl).
  cbn [In] in *.
  repeat (destruct Hrate as [[= <- _] | Hrate]; [tauto |]).
  destruct Hrate.
Qed.

Lemma unlisted_type_spreads_like_gas_leak_witness :
  calculate_danger_zones
    {| type := Some "fire"; location := location fire_at_W001 |} 10
  = calculate_danger_zones
      {| type := Some "Gas Leak"; location := location fire_at_W001 |} 10.
Proof.
  apply (unlisted_type_spreads_like_gas_leak
           {| type := Some "fire"; location := location fire_at_W001 |} 10).
  intros hazard_type [= <-] Hin. cbn [In] in Hin.
  repeat (destruct Hin as [Hin | Hin]; [discriminate Hin |]).
  exact Hin.
Defined.


(** ** Exposure evaluator: growth *)


Lemma partition_lengths {A : Type} (p1 p2 p3 pm : A -> bool) (l : list A) :
  (forall x, pm x = p1 x || p2 x || p3 x) ->
  (forall x, p1 x = true -> p2 x = false /\ p3 x = false) ->
  (forall x, p2 x = true -> p3 x = false) ->
  (List.length (List.filter p1 l) + List.length (List.filter p2 l)
   + List.length (List.filter p3 l))%nat
  = List.length (List.filter pm l).
Proof.
  intros Hunion H1 H2. induction l as [| x l IH]; [reflexivity |].
  cbn [List.filter]. rewrite (Hunion x).
  destruct (p1 x) eqn:E1.
  - destruct (H1 x E1) as [-> ->]. cbn [orb List.length].
    rewrite <- IH. reflexivity.
  - destruct (p2 x) eqn:E2.
    + rewrite (H2 x E2). cbn [orb List.length]. rewrite <- IH.
      rewrite <- !plus_n_Sm. reflexivity.
    + destruct (p3 x); cbn [orb List.length]; rewrite <- IH;
        rewrite <- ?plus_n_Sm; reflexivity.
Qed.



(** ** Recommended action *)

(** X8: the fallback text 'Monitor situation' is returned exactly for a
    danger level other than critical, high and medium, whatever the hazard
    type; consequently no record returned by the exposure evaluation
    carries it. *)
Theorem action_fallback_only_for_unknown_level :
  (forall danger_level hazard_type,
      get_action danger_level hazard_type = "Monitor situation"
      <-> ~ In danger_level ["critical"; "high"; "medium"])
  /\ (forall hazard hazard_type workers t affected lvl bucket record,
        type hazard = Some hazard_type ->
        get_affected_workers hazard workers t = Ok affected ->
        affected !! lvl = Some bucket ->
        In record bucket ->
        recommended_action record = get_action lvl hazard_type
        /\ recommended_action record <> "Monitor situation").
Proof.
  assert (Hfallback : forall danger_level hazard_type,
             get_action danger_level hazard_type = "Monitor situation"
             <-> ~ In danger_level ["critical"; "high"; "medium"]).
  { intros danger_level hazard_type. split.
    - intros Haction Hin. cbn [In] in Hin.
      destruct Hin as [<- | [<- | [<- | []]]]; discriminate Haction.
    - intros Hnotin. unfold get_action.
      rewrite (not_elem_of_list_to_map_1 (M := gmap string)); [reflexivity |].
      rewrite list_elem_of_In. cbn [fmap list_fmap fst In].
      intros Hin. apply Hnotin. cbn [In]. tauto. }
  split; [exact Hfallback |].
  intros hazard hazard_type workers t affected lvl bucket record
    Htype Hres Hlookup Hin.
  destruct (get_affected_workers_buckets hazard hazard_type workers t Htype)
    as (c & h & m & _ & Hres' & _).
  rewrite Hres in Hres'. injection Hres' as ->.
  apply buckets_lookup in Hlookup.
  assert (Haction : recommended_action record = get_action lvl hazard_type).
  { destruct Hlookup as [[-> ->] | [[-> ->] | [-> ->]]];
      apply in_map_iff in Hin; destruct Hin as (w & <- & _); reflexivity. }
  split; [exact Haction |].
  rewrite Haction, Hfallback. intros Hnotin. apply Hnotin. cbn [In].
  destruct Hlookup as [[-> _] | [[-> _] | [-> _]]]; tauto.
Qed.


Lemma action_fallback_only_for_unknown_level_witness :
  get_action "low" "Fire" = "Monitor situation".
Proof.
  apply (proj1 action_fallback_only_for_unknown_level "low" "Fire").
  cbn [In]. intros [H | [H | [H | H]]]; [discriminate .. | exact H].
Defined.

(** ** Frame generator: step, frames, edge cases *)


Lemma range_empty (stop step : Z) :
  (0 < step /\ stop <= 0)%Z \/ (step < 0 /\ 0 <= stop)%Z ->
  range 0 stop step = Ok [].
Proof.
  intros H. unfold range.
  destruct (Z.eqb_spec step 0) as [-> | _]; [exfalso; lia |].
  destruct (Z.ltb_spec 0 step) as [Hpos | Hneg]; cbn iota beta.
  - destruct (Z.ltb_spec 0 stop); [exfalso; lia | reflexivity].
  - destruct (Z.ltb_spec stop 0); [exfalso; lia | reflexivity].
Qed.





(** X10: for every frame rate from 1 to 92 the step
    [int(1 / (1 / fps))] is fps itself, so the frames are fps seconds
    apart; 93 is the first rate where the binary64 rounding of [1 / fps] and
    of its reciprocal makes the step differ from fps (it is 92). *)
Theorem frame_step_is_fps_up_to_92 (fps : Z) :
  (1 <= fps <= 92)%Z -> frame_step fps = Ok fps.
Proof.
  intros Hfps.
  assert (Hall :
    forallb
      (fun n =>
         match frame_step (Z.of_nat n) with
         | Ok step => (step =? Z.of_nat n)%Z
         | Raise _ => false
         end)
      (seq 1 92) = true) by (vm_compute; reflexivity).
  rewrite forallb_forall in Hall.
  specialize (Hall (Z.to_nat fps)).
  rewrite Z2Nat.id in Hall by lia.
  destruct (frame_step fps) as [step | e].
  - rewrite (proj1 (Z.eqb_eq step fps)); [reflexivity |].
    apply Hall, in_seq. lia.
  - discriminate Hall. apply in_seq. lia.
Qed.

Lemma frame_step_is_fps_up_to_92_witness :
  frame_step 60 = Ok 60%Z /\ frame_step 93 = Ok 92%Z.
Proof.
  split; [apply (frame_step_is_fps_up_to_92 60); lia | reflexivity].
Defined.

(** X11: edge cases of the generator, for every hazard (with or without a
    type) and every worker list.  With fps = 0 it raises ZeroDivisionError;
    with a positive step and total_seconds <= 0, or with a negative step
    (a negative fps) and total_seconds >= 0, the range is empty and it
    returns no frame. *)
Theorem frames_edge_cases
    (hazard : Hazard) (workers : list Worker) (total_seconds : Z) :
  generate_simulation_frames hazard workers total_seconds 0
  = Raise ZeroDivisionError
  /\ forall fps step,
      frame_step fps = Ok step ->
      (0 < step /\ total_seconds <= 0)%Z
      \/ (step < 0 /\ 0 <= total_seconds)%Z ->
      generate_simulation_frames hazard workers total_seconds fps = Ok [].
Proof.
  split; [reflexivity |].
  intros fps step Hstep Hempty. unfold generate_simulation_frames.
  rewrite Hstep. cbn [bind]. rewrite (range_empty _ _ Hempty). reflexivity.
Qed.

Lemma frames_edge_cases_witness :
  generate_simulation_frames fire_at_W001 MOCK_WORKERS 30 (-2) = Ok [].
Proof.
  apply (proj2 (frames_edge_cases fire_at_W001 MOCK_WORKERS 30)
           (-2)%Z (-2)%Z);
    [reflexivity | right; lia].
Defined.

(** ** Queries on the hazards collection *)

#[global] Instance newer_or_equal_total : Total newer_or_equal.
Proof. intros r1 r2. unfold newer_or_equal. lia. Qed.

#[global] Instance newer_or_equal_transitive : Transitive newer_or_equal.
Proof. intros r1 r2 r3. unfold newer_or_equal. lia. Qed.

Lemma find_hazards_In (matches : HazardDoc -> bool) (w : World)
    (r : HazardRecord) :
  In r (find_hazards matches w)
  <-> hazards_collection w !! _id r = Some (fields r)
      /\ matches (fields r) = true.
Proof.
  unfold find_hazards. rewrite in_map_iff. split.
  - intros ([oid doc] & <- & Hin). apply filter_In in Hin.
    destruct Hin as [Hin Hmatch]. cbn [fst snd _id fields] in *.
    apply list_elem_of_In, elem_of_map_to_list in Hin. auto.
  - intros [Hstored Hmatch]. exists (_id r, fields r).
    split; [destruct r; reflexivity |].
    apply filter_In. split; [| exact Hmatch].
    apply list_elem_of_In, elem_of_map_to_list. exact Hstored.
Qed.

Lemma find_hazards_NoDup (matches : HazardDoc -> bool) (w : World) :
  NoDup (map _id (find_hazards matches w)).
Proof.
  unfold find_hazards. rewrite map_map. cbn [_id].
  pose proof (NoDup_fst_map_to_list (hazards_collection w)) as Hnd.
  induction (map_to_list (hazards_collection w)) as [| kv l IH].
  - constructor.
  - cbn [fmap list_fmap] in Hnd. apply NoDup_cons in Hnd.
    destruct Hnd as [Hnotin Hnd].
    cbn [List.filter]. destruct (matches (snd kv)).
    + cbn [map]. apply NoDup_cons. split; [| apply IH, Hnd].
      intros Hin. apply Hnotin.
      apply list_elem_of_In, in_map_iff in Hin.
      destruct Hin as (kv' & Heq & Hin'). apply filter_In in Hin'.
      apply list_elem_of_In. apply in_map_iff.
      exists kv'. split; [exact Heq | apply Hin'].
    + apply IH, Hnd.
Qed.

Lemma sort_newest_first_In (records : list HazardRecord) (r : HazardRecord) :
  In r (sort_newest_first records) <-> In r records.
Proof.
  unfold sort_newest_first. rewrite <- !list_elem_of_In.
  rewrite (merge_sort_Permutation newer_or_equal records). reflexivity.
Qed.

Lemma sort_newest_first_sorted (records : list HazardRecord) :
  StronglySorted newer_or_equal (sort_newest_first records).
Proof. apply StronglySorted_merge_sort; apply _. Qed.

Lemma sort_newest_first_NoDup (records : list HazardRecord) :
  NoDup (map _id records) -> NoDup (map _id (sort_newest_first records)).
Proof.
  intros Hnd. unfold sort_newest_first.
  assert (Hperm : map _id (merge_sort newer_or_equal records)
                  ≡ₚ map _id records)
    by (apply Permutation_map, merge_sort_Permutation).
  rewrite Hperm. exact Hnd.
Qed.

(** X12: the active-hazards query returns exactly the stored hazards whose
    status is pending, acknowledged or escalated (so an escalated hazard is
    listed and a resolved one never is), each once, newest first; it writes
    nothing. *)
Theorem active_hazards_are_the_unresolved_ones (w : World) :
  exists hazards,
    HazardModel.get_active_hazards w = (Ok hazards, w)
    /\ (forall r,
          In r hazards
          <-> hazards_collection w !! _id r = Some (fields r)
              /\ In (doc_status (fields r))
                   ["pending"; "acknowledged"; "escalated"])
    /\ StronglySorted newer_or_equal hazards
    /\ NoDup (map _id hazards).
Proof.
  eexists. split; [reflexivity |]. split; [| split].
  - intros r. rewrite sort_newest_first_In, find_hazards_In.
    rewrite existsb_exists. split.
    + intros [Hstored (s & Hin & Heq)]. apply String.eqb_eq in Heq.
      split; [exact Hstored | congruence].
    + intros [Hstored Hin]. split; [exact Hstored |].
      exists (doc_status (fields r)). split; [exact Hin |].
      apply String.eqb_refl.
  - apply sort_newest_first_sorted.
  - apply sort_newest_first_NoDup, find_hazards_NoDup.
Qed.

(** X13: GET /hazards answers 200 with at most 50 hazards, all stored, each
    once, newest first, and the 50 cut keeps the newest: a stored hazard
    that is not listed is no newer than any listed one.  The store is left
    as it was. *)
Theorem hazards_listing_keeps_the_50_newest (w : World) :
  exists hazards,
    HazardRoutes.get_hazards w
    = (Ok {| HazardRoutes.payload := HazardRoutes.hazard_list hazards;
             HazardRoutes.code := 200 |}, w)
    /\ (List.length hazards <= 50)%nat
    /\ (forall r,
          In r hazards -> hazards_collection w !! _id r = Some (fields r))
    /\ StronglySorted newer_or_equal hazards
    /\ NoDup (map _id hazards)
    /\ (forall r oid doc,
          In r hazards ->
          hazards_collection w !! oid = Some doc ->
          ~ In oid (map _id hazards) ->
          (doc_timestamp doc <= doc_timestamp (fields r))%Z).
Proof.
  unfold HazardRoutes.get_hazards, try_except, bindM, ret,
    HazardModel.get_all_hazards, cursor_limit.
  cbn [Z.eqb Z.abs Z.to_nat Pos.to_nat].
  change (Pos.iter_op Init.Nat.add 50 1%nat) with 50%nat.
  set (all := sort_newest_first (find_hazards (fun _ => true) w)).
  exists (take 50 all). split; [reflexivity |].
  pose proof (sort_newest_first_sorted (find_hazards (fun _ => true) w))
    as Hsorted. fold all in Hsorted.
  pose proof (sort_newest_first_NoDup _ (find_hazards_NoDup (fun _ => true) w))
    as Hnodup. fold all in Hnodup.
  rewrite <- (take_drop 50 all) in Hsorted, Hnodup.
  assert (Hall : forall r, In r all
                   <-> hazards_collection w !! _id r = Some (fields r)).
  { intros r. unfold all. rewrite sort_newest_first_In, find_hazards_In.
    tauto. }
  split; [rewrite length_take; lia |].
  split.
  { intros r Hin. apply Hall. rewrite <- (take_drop 50 all).
    apply in_or_app. left. exact Hin. }
  split; [apply StronglySorted_app_1_l in Hsorted; exact Hsorted |].
  split.
  { rewrite map_app in Hnodup. apply NoDup_app in Hnodup. apply Hnodup. }
  intros r oid doc Hin Hstored Hnotin.
  assert (Hrest : In {| _id := oid; fields := doc |} (drop 50 all)).
  { assert (Hin' : In {| _id := oid; fields := doc |} all)
      by (apply Hall; exact Hstored).
    rewrite <- (take_drop 50 all) in Hin'. apply in_app_or in Hin'.
    destruct Hin' as [Htake | Hdrop]; [| exact Hdrop].
    exfalso. apply Hnotin. apply in_map_iff.
    exists {| _id := oid; fields := doc |}.
    split; [reflexivity | exact Htake]. }
  apply list_elem_of_In in Hin, Hrest.
  exact (StronglySorted_app_1_elem_of _ _ _ _ _ Hsorted Hin Hrest).
Qed.

(** X14: marking a hazard resolved removes it from the active list and
    touches no other hazard: after a successful status update to 'resolved'
    the active-hazards query lists no record with that id, and it lists
    every other hazard exactly when it did before. *)
Theorem resolved_hazard_leaves_the_active_list
    (hazard_id oid : string) (doc : HazardDoc) (w : World) :
  ObjectId hazard_id = Ok oid ->
  hazards_collection w !! oid = Some doc ->
  doc_status doc <> "resolved" ->
  exists reply w' before after,
    Routes.update_hazard_status hazard_id
      (Some {| Routes.rq_status := Some "resolved" |}) w = (Ok reply, w')
    /\ Routes.status_code reply = 200%Z
    /\ HazardModel.get_active_hazards w = (Ok before, w)
    /\ HazardModel.get_active_hazards w' = (Ok after, w')
    /\ ~ In oid (map _id after)
    /\ (forall r, _id r <> oid -> (In r after <-> In r before)).
Proof.
  intros Hid Hdoc Hne.
  assert (Hvalid : In "resolved" Routes.valid_statuses)
    by (cbn; tauto).
  pose proof (update_status_changed hazard_id oid "resolved" doc w
                Hvalid Hid Hdoc Hne) as Hupdate.
  do 4 eexists. split; [exact Hupdate |]. split; [reflexivity |].
  split; [reflexivity |]. split; [reflexivity |].
  split.
  - intros Hin. apply in_map_iff in Hin. destruct Hin as (r & Hr & Hin).
    apply sort_newest_first_In, find_hazards_In in Hin.
    destruct Hin as [Hstored Hactive].
    cbn [hazards_collection] in Hstored. rewrite Hr in Hstored.
    rewrite lookup_insert_eq in Hstored. injection Hstored as Hfields.
    rewrite <- Hfields in Hactive. discriminate Hactive.
  - intros r Hother.
    rewrite !sort_newest_first_In, !find_hazards_In.
    cbn [hazards_collection].
    rewrite lookup_insert_ne by congruence. reflexivity.
Qed.

(** X15: the status update has no transition guard: for a stored hazard
    and any valid status other than its current one (for instance from
    resolved back to pending) the answer is 200 with the updated record;
    the stored document changes in its status only, and no other
    document, reading or delivered event changes. *)
Theorem status_update_has_no_transition_guard
    (hazard_id oid status : string) (doc : HazardDoc) (w : World) :
  In status Routes.valid_statuses ->
  ObjectId hazard_id = Ok oid ->
  hazards_collection w !! oid = Some doc ->
  doc_status doc <> status ->
  exists w' doc',
    Routes.update_hazard_status hazard_id
      (Some {| Routes.rq_status := Some status |}) w
    = (Ok {| Routes.body :=
               Routes.hazard_updated {| _id := oid; fields := doc' |}
                 ("Hazard status updated to " ++ status);
             Routes.status_code := 200 |}, w')
    /\ hazards_collection w' !! oid = Some doc'
    /\ doc_status doc' = status
    /\ (doc_type doc', doc_severity doc', doc_location doc', doc_worker doc',
        doc_source doc', doc_timestamp doc', doc_description doc',
        doc_sensorData doc')
       = (doc_type doc, doc_severity doc, doc_location doc, doc_worker doc,
          doc_source doc, doc_timestamp doc, doc_description doc,
          doc_sensorData doc)
    /\ (forall other,
          other <> oid ->
          hazards_collection w' !! other = hazards_collection w !! other)
    /\ sensors_collection w' = sensors_collection w
    /\ delivered w' = delivered w.
Proof.
  intros Hvalid Hid Hdoc Hne.
  do 2 eexists.
  split; [exact (update_status_changed hazard_id oid status doc w
                   Hvalid Hid Hdoc Hne) |].
  cbn [hazards_collection sensors_collection delivered].
  split; [apply lookup_insert_eq |].
  split; [reflexivity |]. split; [reflexivity |].
  split; [| split; reflexivity].
  intros other Hother. apply lookup_insert_ne. congruence.
Qed.

(** ** Hazard reports *)

Lemma falsy_iff (field : option string) :
  HazardRoutes.falsy field = true <-> field = None \/ field = Some "".
Proof.
  destruct field as [text |]; cbn [HazardRoutes.falsy].
  - rewrite String.eqb_eq. split.
    + intros ->. right. reflexivity.
    + intros [H | [= ->]]; [discriminate H | reflexivity].
  - split; [intros _; left; reflexivity | reflexivity].
Qed.

(** X17: a report that is refused stores nothing.  Without a JSON object
    as body the answer is 500; with the type or the worker missing or empty
    it is 400 'Missing required fields'; with type and worker present but no
    location it is 500, from the AttributeError raised while the document
    is built.  In all three cases the world is left as it was. *)
Theorem refused_report_stores_nothing
    (new_oid : string) (utcnow : Z) (w : World) :
  HazardRoutes.report_hazard new_oid utcnow None w
  = (Ok {| HazardRoutes.payload := HazardRoutes.error_of AttributeError;
           HazardRoutes.code := 500 |}, w)
  /\ (forall data,
        HazardRoutes.rp_type data = None
        \/ HazardRoutes.rp_type data = Some ""
        \/ HazardRoutes.rp_worker data = None
        \/ HazardRoutes.rp_worker data = Some "" ->
        HazardRoutes.report_hazard new_oid utcnow (Some data) w
        = (Ok {| HazardRoutes.payload :=
                   HazardRoutes.error_text "Missing required fields";
                 HazardRoutes.code := 400 |}, w))
  /\ (forall data hazard_type worker,
        HazardRoutes.rp_type data = Some hazard_type ->
        hazard_type <> "" ->
        HazardRoutes.rp_worker data = Some worker ->
        worker <> "" ->
        HazardRoutes.rp_location data = None ->
        HazardRoutes.report_hazard new_oid utcnow (Some data) w
        = (Ok {| HazardRoutes.payload := HazardRoutes.error_of AttributeError;
                 HazardRoutes.code := 500 |}, w)).
Proof.
  split; [reflexivity |]. split.
  - intros data Hmissing.
    unfold HazardRoutes.report_hazard, try_except.
    assert (Hfalsy : HazardRoutes.falsy (HazardRoutes.rp_type data)
                     || HazardRoutes.falsy (HazardRoutes.rp_worker data)
                     = true).
    { apply orb_true_iff. rewrite !falsy_iff. tauto. }
    rewrite Hfalsy. reflexivity.
  - intros data hazard_type worker Htype Hty Hworker Hwk Hlocation.
    unfold HazardRoutes.report_hazard, try_except.
    rewrite Htype, Hworker, Hlocation. cbn [HazardRoutes.falsy].
    apply String.eqb_neq in Hty, Hwk. rewrite Hty, Hwk. reflexivity.
Qed.

(** X18: a complete report is stored and can be read back.  With a
    non-empty type and worker, a location and a fresh ObjectId, the answer
    is 201 with that id; the collection gains exactly one document, pending,
    of source WORKER, with the reported type, worker and location, the
    reported severity or 'medium', and the time of the insert; GET
    /hazards/<id> then answers 200 with that document, whatever the letter
    case of the id in the URL. *)
Theorem report_is_stored_and_read_back
    (new_oid : string) (utcnow : Z) (data : HazardRoutes.ReportData)
    (hazard_type worker : string) (where_ : LocationDoc) (w : World) :
  HazardRoutes.rp_type data = Some hazard_type ->
  hazard_type <> "" ->
  HazardRoutes.rp_worker data = Some worker ->
  worker <> "" ->
  HazardRoutes.rp_location data = Some where_ ->
  hazards_collection w !! new_oid = None ->
  ObjectId new_oid = Ok new_oid ->
  exists doc w',
    HazardRoutes.report_hazard new_oid utcnow (Some data) w
    = (Ok {| HazardRoutes.payload :=
               HazardRoutes.reported new_oid "Hazard reported successfully";
             HazardRoutes.code := 201 |}, w')
    /\ hazards_collection w' = <[new_oid := doc]> (hazards_collection w)
    /\ sensors_collection w' = sensors_collection w
    /\ delivered w' = delivered w
    /\ doc_type doc = Some hazard_type
    /\ doc_worker doc = Some worker
    /\ doc_location doc = where_
    /\ doc_severity doc
       = Some (get (HazardRoutes.rp_severity data) "medium")
    /\ doc_source doc = "WORKER"
    /\ doc_status doc = "pending"
    /\ doc_timestamp doc = utcnow
    /\ (forall hazard_id,
          ObjectId hazard_id = Ok new_oid ->
          HazardRoutes.get_hazard hazard_id w'
          = (Ok {| HazardRoutes.payload :=
                     HazardRoutes.one_hazard
                       {| _id := new_oid; fields := doc |};
                   HazardRoutes.code := 200 |}, w')).
Proof.
  intros Htype Hty Hworker Hwk Hlocation Hfresh Hoid.
  unfold HazardRoutes.report_hazard, try_except.
  rewrite Htype, Hworker, Hlocation. cbn [HazardRoutes.falsy].
  apply String.eqb_neq in Hty, Hwk. rewrite Hty, Hwk. cbn [orb].
  unfold HazardModel.create_hazard, HazardModel.get_hazard_by_id,
    bindM, insert_hazard, lift, find_one_hazard, ret, Routes.hazard_id_of.
  rewrite Hfresh. cbn [hazards_collection]. rewrite Hoid.
  rewrite lookup_insert_eq. cbn [_id].
  do 2 eexists. split; [reflexivity |].
  cbn [hazards_collection sensors_collection delivered].
  split; [reflexivity |]. split; [reflexivity |]. split; [reflexivity |].
  cbn [doc_type doc_worker doc_location doc_severity doc_source doc_status
         doc_timestamp get hd_type hd_worker hd_location hd_severity
         hd_source].
  split; [reflexivity |]. split; [reflexivity |].
  split; [destruct where_; reflexivity |].
  do 4 (split; [reflexivity |]).
  intros hazard_id Hid.
  unfold HazardRoutes.get_hazard, try_except, HazardModel.get_hazard_by_id,
    bindM, lift, find_one_hazard, ret.
  rewrite Hid. cbn [hazards_collection]. rewrite lookup_insert_eq.
  reflexivity.
Qed.

(** ** Sensor ingestion: normal readings and the two events *)

(** X20: a reading the classifier finds normal is logged and nothing else
    happens: the answer is 200, the reading (with its values as sent, its
    location and the time of the insert) is added to the sensor collection,
    no hazard is created and no event is emitted, whatever the socket. *)
Theorem normal_reading_is_only_logged
    (env : Routes.Env) (data : SensorData) (w : World) :
  fst (detect_hazard_from_sensors
         (get (sd_co2 data) 400%Q) (get (sd_temperature data) 25%Q)
         (get (sd_humidity data) 60%Q)) = None ->
  sensors_collection w !! Routes.reading_oid env = None ->
  exists reading,
    Routes.receive_sensor_data env (Some data) w
    = (Ok {| Routes.body :=
               Routes.sensor_normal "Sensor data logged. All readings normal.";
             Routes.status_code := 200 |},
       {| hazards_collection := hazards_collection w;
          sensors_collection :=
            <[Routes.reading_oid env := reading]> (sensors_collection w);
          delivered := delivered w |})
    /\ rd_workerId reading = sd_workerId data
    /\ rd_co2 reading = sd_co2 data
    /\ rd_temperature reading = sd_temperature data
    /\ rd_humidity reading = sd_humidity data
    /\ rd_timestamp reading = Routes.reading_time env.
Proof.
  intros Hnormal Hfresh.
  unfold Routes.receive_sensor_data, SensorModel.log_sensor_reading,
    try_except, bindM, insert_reading.
  rewrite Hfresh.
  destruct (detect_hazard_from_sensors _ _ _) as [hazard_type severity].
  cbn [fst] in Hnormal. subst hazard_type.
  eexists. split; [reflexivity |]. repeat split.
Qed.

Lemma receive_sensor_data_detected
    (env : Routes.Env) (data : SensorData) (w : World)
    (hazard_type severity : string) :
  detect_hazard_from_sensors
    (get (sd_co2 data) 400%Q) (get (sd_temperature data) 25%Q)
    (get (sd_humidity data) 60%Q)
  = (Some hazard_type, Some severity) ->
  sensors_collection w !! Routes.reading_oid env = None ->
  hazards_collection w !! Routes.hazard_oid env = None ->
  ObjectId (Routes.hazard_oid env) = Ok (Routes.hazard_oid env) ->
  exists doc reading,
    Routes.receive_sensor_data env (Some data) w
    = (Ok {| Routes.body :=
               Routes.sensor_hazard (Some hazard_type) (Some severity)
                 (Routes.hazard_oid env) (hazard_type ++ " detected!");
             Routes.status_code := 201 |},
       snd (Routes.broadcast env
              (Some {| _id := Routes.hazard_oid env; fields := doc |})
              {| hazards_collection :=
                   <[Routes.hazard_oid env := doc]> (hazards_collection w);
                 sensors_collection :=
                   <[Routes.reading_oid env := reading]>
                     (sensors_collection w);
                 delivered := delivered w |})).
Proof.
  intros Hdetect Hreading Hhazard Hoid.
  unfold Routes.receive_sensor_data, SensorModel.log_sensor_reading.
  unfold try_except at 1. unfold bindM at 1. unfold insert_reading at 1.
  rewrite Hreading, Hdetect.
  unfold bindM at 1.
  unfold HazardModel.create_hazard, HazardModel.get_hazard_by_id.
  unfold bindM at 1. unfold bindM at 1. unfold insert_hazard at 1.
  cbn [hazards_collection sensors_collection delivered].
  rewrite Hhazard.
  unfold bindM at 1. unfold lift at 1. rewrite Hoid.
  unfold bindM at 1. unfold find_one_hazard at 1.
  cbn [hazards_collection sensors_collection delivered].
  rewrite lookup_insert_eq. unfold ret at 1.
  unfold bindM at 1.
  match goal with
  | |- context [Routes.broadcast env
                  (Some {| _id := _; fields := ?doc |})
                  {| hazards_collection := _;
                     sensors_collection := <[_ := ?reading]> _;
                     delivered := _ |}] =>
      exists doc, reading
  end.
  match goal with
  | |- context [Routes.broadcast env ?hazard ?world] =>
      destruct (broadcast_never_fails env hazard world)
        as (events & Hemit & _)
  end.
  rewrite !Hemit. cbn [snd].
  unfold bindM, Routes.hazard_id_of, ret. cbn [_id]. reflexivity.
Qed.

(** X21: what the supervisors receive for a detected hazard, the answer
    being 201 in every case.  Without [socketio] on the application nothing
    is delivered; with a socket that accepts both emits, 'new-hazard' with
    the created record and then 'start-simulation' with its id are
    delivered, in that order; if the first emit is accepted and the second
    raises, 'new-hazard' alone is delivered. *)
Theorem detected_hazard_events
    (env : Routes.Env) (data : SensorData) (w : World)
    (hazard_type severity : string) :
  detect_hazard_from_sensors
    (get (sd_co2 data) 400%Q) (get (sd_temperature data) 25%Q)
    (get (sd_humidity data) 60%Q)
  = (Some hazard_type, Some severity) ->
  sensors_collection w !! Routes.reading_oid env = None ->
  hazards_collection w !! Routes.hazard_oid env = None ->
  ObjectId (Routes.hazard_oid env) = Ok (Routes.hazard_oid env) ->
  exists doc w',
    let record := {| _id := Routes.hazard_oid env; fields := doc |} in
    Routes.receive_sensor_data env (Some data) w
    = (Ok {| Routes.body :=
               Routes.sensor_hazard (Some hazard_type) (Some severity)
                 (Routes.hazard_oid env) (hazard_type ++ " detected!");
             Routes.status_code := 201 |}, w')
    /\ hazards_collection w' !! Routes.hazard_oid env = Some doc
    /\ (Routes.socketio env = None -> delivered w' = delivered w)
    /\ (forall socket,
          Routes.socketio env = Some socket ->
          socket (new_hazard (Some record)) = None ->
          socket (start_simulation (Routes.hazard_oid env)) = None ->
          delivered w'
          = (delivered w
             ++ [ new_hazard (Some record);
                  start_simulation (Routes.hazard_oid env) ])%list)
    /\ (forall socket e,
          Routes.socketio env = Some socket ->
          socket (new_hazard (Some record)) = None ->
          socket (start_simulation (Routes.hazard_oid env)) = Some e ->
          delivered w' = (delivered w ++ [new_hazard (Some record)])%list).
Proof.
  intros Hdetect Hreading Hhazard Hoid.
  destruct (receive_sensor_data_detected env data w hazard_type severity
              Hdetect Hreading Hhazard Hoid) as (doc & reading & Hres).
  exists doc. eexists. cbn zeta. split; [exact Hres |].
  unfold Routes.broadcast, try_except, bindM, Routes.emit,
    Routes.hazard_id_of, ret.
  cbn [hazards_collection sensors_collection delivered _id].
  split.
  { destruct (Routes.socketio env) as [socket |];
      [| cbn [snd hazards_collection]; apply lookup_insert_eq].
    destruct (socket (new_hazard _));
      [cbn [snd hazards_collection]; apply lookup_insert_eq |].
    cbn [hazards_collection sensors_collection delivered].
    destruct (socket (start_simulation _));
      cbn [snd hazards_collection]; apply lookup_insert_eq. }
  split.
  { intros ->. reflexivity. }
  split.
  - intros socket -> H1 H2. rewrite H1.
    cbn [hazards_collection sensors_collection delivered].
    rewrite H2. cbn [snd delivered]. rewrite <- app_assoc. reflexivity.
  - intros socket e -> H1 H2. rewrite H1.
    cbn [hazards_collection sensors_collection delivered].
    rewrite H2. reflexivity.
Qed.


(** ** Instances of the properties above on the sample data *)

Lemma update_status_invalid_witness :
  Routes.update_hazard_status "64b7f0c2a1d3e4f5a6b7c8d9"
    (Some {| Routes.rq_status := Some "bogus" |}) one_hazard_world
  = (Ok {| Routes.body := Routes.error_message "Invalid status";
           Routes.status_code := 400 |}, one_hazard_world).
Proof.
  apply (update_status_invalid "64b7f0c2a1d3e4f5a6b7c8d9" (Some "bogus")
           one_hazard_world).
  intros s [= <-] Hin. cbn [Routes.valid_statuses In] in Hin.
  repeat (destruct Hin as [Hin | Hin]; [discriminate Hin |]).
  exact Hin.
Defined.

Lemma resolved_hazard_leaves_the_active_list_witness :
  exists reply w' before after,
    Routes.update_hazard_status "64b7f0c2a1d3e4f5a6b7c8d9"
      (Some {| Routes.rq_status := Some "resolved" |}) one_hazard_world
    = (Ok reply, w')
    /\ HazardModel.get_active_hazards one_hazard_world
       = (Ok before, one_hazard_world)
    /\ HazardModel.get_active_hazards w' = (Ok after, w')
    /\ ~ In "64b7f0c2a1d3e4f5a6b7c8d9" (map _id after).
Proof.
  destruct (resolved_hazard_leaves_the_active_list
              "64b7f0c2a1d3e4f5a6b7c8d9" "64b7f0c2a1d3e4f5a6b7c8d9"
              pending_gas_leak one_hazard_world eq_refl eq_refl)
    as (reply & w' & before & after & Hupdate & _ & Hbefore & Hafter
        & Hgone & _).
  - discriminate.
  - exists reply, w', before, after. auto.
Defined.

Lemma status_update_has_no_transition_guard_witness :
  exists w' doc',
    Routes.update_hazard_status "64b7f0c2a1d3e4f5a6b7c8d9"
      (Some {| Routes.rq_status := Some "pending" |}) resolved_hazard_world
    = (Ok {| Routes.body :=
               Routes.hazard_updated
                 {| _id := "64b7f0c2a1d3e4f5a6b7c8d9"; fields := doc' |}
                 "Hazard status updated to pending";
             Routes.status_code := 200 |}, w')
    /\ doc_status doc' = "pending".
Proof.
  destruct (status_update_has_no_transition_guard
              "64b7f0c2a1d3e4f5a6b7c8d9" "64b7f0c2a1d3e4f5a6b7c8d9" "pending"
              (set_status "resolved" pending_gas_leak) resolved_hazard_world)
    as (w' & doc' & Hupdate & _ & Hstatus & _).
  - cbn [Routes.valid_statuses In]. tauto.
  - reflexivity.
  - reflexivity.
  - discriminate.
  - exists w', doc'. auto.
Defined.

Lemma refused_report_stores_nothing_witness :
  HazardRoutes.report_hazard "64b7f0c2a1d3e4f5a6b7c8db" 1700000200
    (Some {| HazardRoutes.rp_type := Some "Fire";
             HazardRoutes.rp_severity := Some "high";
             HazardRoutes.rp_location := None;
             HazardRoutes.rp_worker := Some "W001";
             HazardRoutes.rp_description := None |}) empty_world
  = (Ok {| HazardRoutes.payload := HazardRoutes.error_of AttributeError;
           HazardRoutes.code := 500 |}, empty_world).
Proof.
  apply (proj2 (proj2 (refused_report_stores_nothing
                         "64b7f0c2a1d3e4f5a6b7c8db" 1700000200 empty_world))
           _ "Fire" "W001");
    [reflexivity | discriminate | reflexivity | discriminate | reflexivity].
Defined.

Lemma report_is_stored_and_read_back_witness :
  exists doc w',
    HazardRoutes.report_hazard "64b7f0c2a1d3e4f5a6b7c8db" 1700000200
      (Some complete_report) one_hazard_world
    = (Ok {| HazardRoutes.payload :=
               HazardRoutes.reported "64b7f0c2a1d3e4f5a6b7c8db"
                 "Hazard reported successfully";
             HazardRoutes.code := 201 |}, w')
    /\ doc_severity doc = Some "medium"
    /\ HazardRoutes.get_hazard "64B7F0C2A1D3E4F5A6B7C8DB" w'
       = (Ok {| HazardRoutes.payload :=
                  HazardRoutes.one_hazard
                    {| _id := "64b7f0c2a1d3e4f5a6b7c8db"; fields := doc |};
                HazardRoutes.code := 200 |}, w').
Proof.
  destruct (report_is_stored_and_read_back
              "64b7f0c2a1d3e4f5a6b7c8db" 1700000200 complete_report
              "Rock Fall" "W002"
              {| loc_lat := Some 23.045%Q; loc_lng := Some 81.325%Q;
                 loc_sector := Some "B" |}
              one_hazard_world)
    as (doc & w' & Hreport & _ & _ & _ & _ & _ & _ & Hseverity & _ & _ & _
        & Hget).
  - reflexivity.
  - discriminate.
  - reflexivity.
  - discriminate.
  - reflexivity.
  - reflexivity.
  - reflexivity.
  - exists doc, w'. split; [exact Hreport |]. split; [exact Hseverity |].
    apply Hget. reflexivity.
Defined.

Lemma normal_reading_is_only_logged_witness :
  exists reading,
    Routes.receive_sensor_data failing_socket_env (Some empty_reading)
      empty_world
    = (Ok {| Routes.body :=
               Routes.sensor_normal "Sensor data logged. All readings normal.";
             Routes.status_code := 200 |},
       {| hazards_collection := ∅;
          sensors_collection := {[ "64b7f0c2a1d3e4f5a6b7c8da" := reading ]};
          delivered := [] |}).
Proof.
  destruct (normal_reading_is_only_logged failing_socket_env empty_reading
              empty_world eq_refl eq_refl) as (reading & Hres & _).
  exists reading. exact Hres.
Defined.

Lemma detected_hazard_events_witness :
  exists doc w',
    Routes.receive_sensor_data working_socket_env (Some gas_reading)
      empty_world
    = (Ok {| Routes.body :=
               Routes.sensor_hazard (Some "Gas Leak") (Some "high")
                 "64b7f0c2a1d3e4f5a6b7c8db" "Gas Leak detected!";
             Routes.status_code := 201 |}, w')
    /\ delivered w'
       = [ new_hazard
             (Some {| _id := "64b7f0c2a1d3e4f5a6b7c8db"; fields := doc |});
           start_simulation "64b7f0c2a1d3e4f5a6b7c8db" ].
Proof.
  destruct (detected_hazard_events working_socket_env gas_reading empty_world
              "Gas Leak" "high" eq_refl eq_refl eq_refl eq_refl)
    as (doc & w' & Hres & _ & _ & Hboth & _).
  exists doc, w'. split; [exact Hres |].
  apply (Hboth (fun _ => None)); reflexivity.
Defined.


(** ** Hazards of a worker, hazards of a sector *)

(** X23: GET /hazards/worker/<id> always answers 200: the list holds
    exactly the stored hazards whose worker field is that id, each once,
    newest first, and it is empty (not a 404) for an id no hazard carries.
    The sector query of the model selects by the location's sector in the
    same way.  Neither writes. *)
Theorem worker_and_sector_queries (w : World) :
  (forall worker_id,
      exists hazards,
        HazardRoutes.get_worker_hazards worker_id w
        = (Ok {| HazardRoutes.payload := HazardRoutes.hazard_list hazards;
                 HazardRoutes.code := 200 |}, w)
        /\ (forall r,
              In r hazards
              <-> hazards_collection w !! _id r = Some (fields r)
                  /\ doc_worker (fields r) = Some worker_id)
        /\ StronglySorted newer_or_equal hazards
        /\ NoDup (map _id hazards)
        /\ ((forall oid doc,
                hazards_collection w !! oid = Some doc ->
                doc_worker doc <> Some worker_id) ->
            hazards = []))
  /\ (forall sector,
        exists hazards,
          HazardModel.get_hazards_by_sector sector w = (Ok hazards, w)
          /\ (forall r,
                In r hazards
                <-> hazards_collection w !! _id r = Some (fields r)
                    /\ loc_sector (doc_location (fields r)) = Some sector)
          /\ StronglySorted newer_or_equal hazards).
Proof.
  split.
  - intros worker_id. eexists. split; [reflexivity |].
    assert (Hchar : forall r,
      In r (sort_newest_first
              (find_hazards
                 (fun doc =>
                    match doc_worker doc with
                    | Some worker => String.eqb worker worker_id
                    | None => false
                    end) w))
      <-> hazards_collection w !! _id r = Some (fields r)
          /\ doc_worker (fields r) = Some worker_id).
    { intros r. rewrite sort_newest_first_In, find_hazards_In.
      destruct (doc_worker (fields r)) as [worker |].
      - rewrite String.eqb_eq. split; intros [H1 H2]; split; congruence.
      - split; intros [H1 H2]; discriminate. }
    split; [exact Hchar |].
    split; [apply sort_newest_first_sorted |].
    split; [apply sort_newest_first_NoDup, find_hazards_NoDup |].
    intros Hnone.
    destruct (sort_newest_first _) as [| r rest] eqn:Hlist; [reflexivity |].
    exfalso. destruct (proj1 (Hchar r)) as [Hstored Hworker].
    + left. reflexivity.
    + exact (Hnone _ _ Hstored Hworker).
  - intros sector. eexists. split; [reflexivity |].
    split; [| apply sort_newest_first_sorted].
    intros r. rewrite sort_newest_first_In, find_hazards_In.
    destruct (loc_sector (doc_location (fields r))) as [s |].
    + rewrite String.eqb_eq. split; intros [H1 H2]; split; congruence.
    + split; intros [H1 H2]; discriminate.
Qed.

Lemma worker_and_sector_queries_witness :
  exists hazards,
    HazardRoutes.get_worker_hazards "W999" one_hazard_world
    = (Ok {| HazardRoutes.payload := HazardRoutes.hazard_list hazards;
             HazardRoutes.code := 200 |}, one_hazard_world)
    /\ hazards = [].
Proof.
  destruct (proj1 (worker_and_sector_queries one_hazard_world) "W999")
    as (hazards & Hquery & _ & _ & _ & Hempty).
  exists hazards. split; [exact Hquery |].
  apply Hempty. intros oid doc Hstored.
  unfold one_hazard_world in Hstored. cbn [hazards_collection] in Hstored.
  apply lookup_singleton_Some in Hstored. destruct Hstored as [_ <-].
  discriminate.
Defined.

(** * Properties in binary64 *)

(** ** Rounding to nearest in binary64 *)

Section Rounding.

Local Open Scope Z_scope.

Lemma fexp_eq (e : Z) : fexp prec emax e = Z.max (e - 53) (-1074).
Proof. reflexivity. Qed.

Lemma digits2_pos_spec (p : positive) :
  2 ^ (Zpos (digits2_pos p) - 1) <= Zpos p < 2 ^ Zpos (digits2_pos p).
Proof.
  induction p as [p IH | p IH |]; cbn [digits2_pos].
  - rewrite Pos2Z.inj_succ.
    replace (Z.succ (Zpos (digits2_pos p)) - 1)
      with (Z.succ (Zpos (digits2_pos p) - 1)) by lia.
    rewrite !Z.pow_succ_r by lia. lia.
  - rewrite Pos2Z.inj_succ.
    replace (Z.succ (Zpos (digits2_pos p)) - 1)
      with (Z.succ (Zpos (digits2_pos p) - 1)) by lia.
    rewrite !Z.pow_succ_r by lia. lia.
  - cbn. lia.
Qed.

Lemma digits2_pos_unique (p : positive) (k : Z) :
  2 ^ (k - 1) <= Zpos p < 2 ^ k -> Zpos (digits2_pos p) = k.
Proof.
  intros [Hlo Hhi]. pose proof (digits2_pos_spec p) as [Dlo Dhi].
  set (d := Zpos (digits2_pos p)) in *.
  assert (0 < d) by (subst d; lia).
  assert (0 < k).
  { destruct (Z.ltb_spec 0 k) as [| Hk]; [assumption |].
    apply Zle_lt_or_eq in Hk. destruct Hk as [Hk | ->].
    - rewrite (Z.pow_neg_r 2 k) in Hhi by lia. lia.
    - cbn in Hhi. lia. }
  assert (k - 1 < d) by (apply (Z.pow_lt_mono_r_iff 2); lia).
  assert (d - 1 < k) by (apply (Z.pow_lt_mono_r_iff 2); lia).
  lia.
Qed.

(** One shift to the right halves the mantissa. *)
Lemma shr_1_m (mrs : shr_record) :
  0 <= shr_m mrs -> shr_m (shr_1 mrs) = shr_m mrs / 2.
Proof.
  destruct mrs as [m r s]. cbn [shr_m shr_1]. intros Hm.
  destruct m as [| [p | p |] | p]; cbn [shr_m];
    [reflexivity | | | reflexivity | lia].
  - rewrite (Pos2Z.inj_xI p). apply Z.div_unique with (r := 1); lia.
  - rewrite (Pos2Z.inj_xO p). apply Z.div_unique with (r := 0); lia.
Qed.

Lemma iter_shr_1_m (p : positive) :
  forall mrs, 0 <= shr_m mrs ->
    shr_m (SpecFloat.iter_pos shr_1 p mrs) = shr_m mrs / 2 ^ Zpos p.
Proof.
  induction p as [p IH | p IH |]; intros mrs Hm; cbn [SpecFloat.iter_pos].
  - assert (H1 : 0 <= shr_m (shr_1 mrs))
      by (rewrite shr_1_m by assumption; apply Z.div_pos; lia).
    assert (H2 : 0 <= shr_m (SpecFloat.iter_pos shr_1 p (shr_1 mrs)))
      by (rewrite IH by assumption; apply Z.div_pos; lia).
    rewrite IH, IH, shr_1_m by assumption.
    rewrite !Z.div_div by lia.
    rewrite (Pos2Z.inj_xI p).
    replace (2 * Zpos p + 1) with (1 + Zpos p + Zpos p) by lia.
    rewrite !Z.pow_add_r by lia. rewrite Z.pow_1_r. f_equal. ring.
  - assert (H2 : 0 <= shr_m (SpecFloat.iter_pos shr_1 p mrs))
      by (rewrite IH by assumption; apply Z.div_pos; lia).
    rewrite IH, IH by assumption.
    rewrite !Z.div_div by lia.
    rewrite (Pos2Z.inj_xO p).
    replace (2 * Zpos p) with (Zpos p + Zpos p) by lia.
    rewrite !Z.pow_add_r by lia. reflexivity.
  - rewrite shr_1_m by assumption. reflexivity.
Qed.

Lemma round_nearest_even_bounds (m : Z) (l : SpecFloat.location) :
  m <= round_nearest_even m l <= m + 1.
Proof.
  destruct l as [| []]; cbn [round_nearest_even]; try lia.
  destruct (Z.even m); lia.
Qed.

Lemma shr_fexp_nonneg (m e : Z) (l : SpecFloat.location) :
  0 <= m -> 0 <= shr_m (fst (shr_fexp prec emax m e l)).
Proof.
  intros Hm. unfold shr_fexp, shr.
  assert (H0 : shr_m (shr_record_of_loc m l) = m)
    by (destruct l as [| []]; reflexivity).
  destruct (fexp prec emax (Zdigits2 m + e) - e) as [| p | p]; cbn [fst];
    rewrite ?iter_shr_1_m, H0; try lia.
  apply Z.div_pos; lia.
Qed.

(** Rounding keeps the sign it is given and never produces a NaN. *)
Lemma binary_round_aux_signed (sx : bool) (m e : Z) (l : SpecFloat.location) :
  0 <= m -> signed sx (binary_round_aux prec emax sx m e l).
Proof.
  intros Hm. unfold signed, binary_round_aux.
  pose proof (shr_fexp_nonneg m e l Hm) as H1.
  destruct (shr_fexp prec emax m e l) as [mrs' e'] eqn:E1. cbn [fst] in H1.
  pose proof (round_nearest_even_bounds (shr_m mrs') (loc_of_shr_record mrs'))
    as H2.
  set (m1 := round_nearest_even (shr_m mrs') (loc_of_shr_record mrs')) in *.
  pose proof (shr_fexp_nonneg m1 e' loc_Exact ltac:(lia)) as H3.
  destruct (shr_fexp prec emax m1 e' loc_Exact) as [mrs'' e''] eqn:E2.
  cbn [fst] in H3.
  destruct (shr_m mrs'') as [| p | p]; [auto | | lia].
  destruct (e'' <=? emax - prec); eauto.
Qed.

(** A mantissa of 53 binary digits is a float as it stands. *)
Lemma binary_round_aux_exact (sx : bool) (M : positive) (E : Z) :
  Zpos (digits2_pos M) = 53 -> -1074 <= E <= 971 ->
  binary_round_aux prec emax sx (Zpos M) E loc_Exact = S754_finite sx M E.
Proof.
  intros Hd HE. unfold binary_round_aux, shr_fexp. cbn [Zdigits2].
  rewrite fexp_eq, Hd.
  replace (Z.max (53 + E - 53) (-1074) - E) with 0 by lia.
  cbn [shr shr_record_of_loc shr_m loc_of_shr_record round_nearest_even
       Zdigits2].
  rewrite fexp_eq, Hd.
  replace (Z.max (53 + E - 53) (-1074) - E) with 0 by lia.
  cbn [shr shr_record_of_loc shr_m].
  destruct (Z.leb_spec E (emax - prec)) as [_ | Hbad];
    [reflexivity | unfold emax, prec in Hbad; lia].
Qed.

(** A mantissa of [53 + n] digits, away from underflow and overflow, is
    rounded to 53 digits: the quotient by [2^n] or its successor. *)
Lemma binary_round_aux_normal (sx : bool) (M : positive) (E : Z) (n : positive) :
  Zpos (digits2_pos M) = 53 + Zpos n ->
  -1074 <= E + Zpos n -> E + Zpos n + 1 <= 971 ->
  exists m' e',
    binary_round_aux prec emax sx (Zpos M) E loc_Exact = S754_finite sx m' e'
    /\ 2 ^ 52 <= Zpos m' < 2 ^ 53
    /\ ((e' = E + Zpos n
         /\ Zpos M / 2 ^ Zpos n <= Zpos m' <= Zpos M / 2 ^ Zpos n + 1)
        \/ (e' = E + Zpos n + 1 /\ Zpos m' = 2 ^ 52
            /\ Zpos M / 2 ^ Zpos n = 2 ^ 53 - 1)).
Proof.
  intros Hd Hlo Hhi.
  pose proof (digits2_pos_spec M) as [Dlo Dhi]. rewrite Hd in Dlo, Dhi.
  replace (53 + Zpos n - 1) with (52 + Zpos n) in Dlo by lia.
  rewrite Z.pow_add_r in Dlo, Dhi by lia.
  assert (Hpow : 0 < 2 ^ Zpos n) by (apply Z.pow_pos_nonneg; lia).
  set (q := Zpos M / 2 ^ Zpos n).
  assert (Hq : 2 ^ 52 <= q < 2 ^ 53).
  { split.
    - apply Z.div_le_lower_bound; lia.
    - apply Z.div_lt_upper_bound; lia. }
  unfold binary_round_aux, shr_fexp. cbn [Zdigits2].
  rewrite fexp_eq, Hd.
  replace (Z.max (53 + Zpos n + E - 53) (-1074) - E) with (Zpos n) by lia.
  cbn [shr shr_record_of_loc].
  set (mrs' := SpecFloat.iter_pos shr_1 n _).
  assert (Hm : shr_m mrs' = q).
  { unfold mrs'. rewrite iter_shr_1_m by (cbn; lia). reflexivity. }
  pose proof (round_nearest_even_bounds (shr_m mrs') (loc_of_shr_record mrs'))
    as Hr.
  set (m1 := round_nearest_even (shr_m mrs') (loc_of_shr_record mrs')) in *.
  rewrite Hm in Hr.
  destruct m1 as [| p1 | p1] eqn:Em1; [lia | | lia].
  cbn [Zdigits2]. rewrite fexp_eq.
  destruct (Z.eq_dec (Zpos p1) (2 ^ 53)) as [Hcarry | Hnocarry].
  - assert (Hd1 : Zpos (digits2_pos p1) = 54)
      by (apply digits2_pos_unique; rewrite Hcarry; cbn; lia).
    rewrite Hd1.
    replace (Z.max (54 + (E + Zpos n) - 53) (-1074) - (E + Zpos n))
      with 1 by lia.
    cbn [shr SpecFloat.iter_pos shr_1 shr_m].
    assert (Hp1 : p1 = 9007199254740992%positive)
      by (apply Pos2Z.inj; rewrite Hcarry; reflexivity).
    subst p1. cbn [shr_m].
    destruct (Z.leb_spec (E + Zpos n + 1) (emax - prec)) as [_ | Hbad];
      [| unfold emax, prec in Hbad; lia].
    do 2 eexists. split; [reflexivity |].
    split; [cbn; lia |]. right. repeat split; try reflexivity.
    change (2 ^ 53) with 9007199254740992 in *. lia.
  - assert (Hd1 : Zpos (digits2_pos p1) = 53)
      by (apply digits2_pos_unique; change (53 - 1) with 52; lia).
    rewrite Hd1.
    replace (Z.max (53 + (E + Zpos n) - 53) (-1074) - (E + Zpos n))
      with 0 by lia.
    cbn [shr shr_m].
    destruct (Z.leb_spec (E + Zpos n) (emax - prec)) as [_ | Hbad];
      [| unfold emax, prec in Hbad; lia].
    do 2 eexists. split; [reflexivity |].
    split; [lia |]. left. split; [reflexivity | lia].
Qed.

(** The product of two normal floats, away from underflow and overflow *)
Lemma SFmul_normal (s1 s2 : bool) (m1 m2 : positive) (e1 e2 : Z) :
  2 ^ 52 <= Zpos m1 < 2 ^ 53 -> 2 ^ 52 <= Zpos m2 < 2 ^ 53 ->
  -1074 <= e1 + e2 + 52 -> e1 + e2 + 54 <= 971 ->
  exists m' e',
    SFmul prec emax (S754_finite s1 m1 e1) (S754_finite s2 m2 e2)
    = S754_finite (xorb s1 s2) m' e'
    /\ 2 ^ 52 <= Zpos m' < 2 ^ 53
    /\ exists n,
        ((n = 52 /\ Zpos m1 * Zpos m2 < 2 ^ 105)
         \/ (n = 53 /\ 2 ^ 105 <= Zpos m1 * Zpos m2))
        /\ ((e' = e1 + e2 + n
             /\ Zpos m1 * Zpos m2 / 2 ^ n <= Zpos m'
                <= Zpos m1 * Zpos m2 / 2 ^ n + 1)
            \/ (e' = e1 + e2 + n + 1 /\ Zpos m' = 2 ^ 52
                /\ Zpos m1 * Zpos m2 / 2 ^ n = 2 ^ 53 - 1)).
Proof.
  intros H1 H2 Hlo Hhi. cbn [SFmul].
  assert (Hprod : 2 ^ 104 <= Zpos (m1 * m2) < 2 ^ 106).
  { rewrite Pos2Z.inj_mul.
    change (2 ^ 104) with (2 ^ 52 * 2 ^ 52).
    change (2 ^ 106) with (2 ^ 53 * 2 ^ 53).
    split; [apply Z.mul_le_mono_nonneg | apply Z.mul_lt_mono_nonneg]; lia. }
  destruct (Z.ltb_spec (Zpos (m1 * m2)) (2 ^ 105)) as [Hlt | Hge].
  - assert (Hd : Zpos (digits2_pos (m1 * m2)) = 53 + 52)
      by (apply digits2_pos_unique; change (53 + 52 - 1) with 104;
          change (53 + 52) with 105; lia).
    destruct (binary_round_aux_normal (xorb s1 s2) (m1 * m2) (e1 + e2) 52 Hd)
      as (m' & e' & Hr & Hm' & Hcases); [lia | lia |].
    exists m', e'. split; [exact Hr |]. split; [exact Hm' |].
    exists 52. rewrite <- Pos2Z.inj_mul.
    split; [left; split; [reflexivity | lia] |]. exact Hcases.
  - assert (Hd : Zpos (digits2_pos (m1 * m2)) = 53 + 53)
      by (apply digits2_pos_unique; change (53 + 53 - 1) with 105;
          change (53 + 53) with 106; lia).
    destruct (binary_round_aux_normal (xorb s1 s2) (m1 * m2) (e1 + e2) 53 Hd)
      as (m' & e' & Hr & Hm' & Hcases); [lia | lia |].
    exists m', e'. split; [exact Hr |]. split; [exact Hm' |].
    exists 53. rewrite <- Pos2Z.inj_mul.
    split; [right; split; [reflexivity | lia] |]. exact Hcases.
Qed.

(** [<] and [<=] on two positive finite floats compare the exponents,
    then the mantissas. *)
Lemma SFltb_finite (m1 m2 : positive) (e1 e2 : Z) :
  SFltb (S754_finite false m1 e1) (S754_finite false m2 e2) = true
  <-> e1 < e2 \/ (e1 = e2 /\ Zpos m1 < Zpos m2).
Proof.
  unfold SFltb, SFcompare.
  change (Pos.compare_cont Eq m1 m2) with (m1 ?= m2)%positive.
  destruct (Z.compare_spec e1 e2);
    [destruct (Pos.compare_spec m1 m2) | |];
    split; intros; try discriminate; try reflexivity; lia.
Qed.

Lemma SFleb_finite (m1 m2 : positive) (e1 e2 : Z) :
  SFleb (S754_finite false m1 e1) (S754_finite false m2 e2) = true
  <-> e1 < e2 \/ (e1 = e2 /\ Zpos m1 <= Zpos m2).
Proof.
  unfold SFleb, SFcompare.
  change (Pos.compare_cont Eq m1 m2) with (m1 ?= m2)%positive.
  destruct (Z.compare_spec e1 e2);
    [destruct (Pos.compare_spec m1 m2) | |];
    split; intros; try discriminate; try reflexivity; lia.
Qed.

(** For a normal float [m] the products [m * 0.33], [m * 0.67] and [m]
    itself increase strictly. *)
Lemma fractions_strictly_nested (x : positive) (e : Z) :
  2 ^ 52 <= Zpos x < 2 ^ 53 -> -1072 <= e <= 970 ->
  let m := S754_finite false x e in
  SFltb (SFmul prec emax m (Binary64.float_literal 33 100))
        (SFmul prec emax m (Binary64.float_literal 67 100)) = true
  /\ SFltb (SFmul prec emax m (Binary64.float_literal 67 100)) m = true.
Proof.
  intros Hx He m. unfold m.
  change (Binary64.float_literal 33 100)
    with (S754_finite false 5944751508129055 (-54)).
  change (Binary64.float_literal 67 100)
    with (S754_finite false 6034823500676465 (-53)).
  destruct (SFmul_normal false false x 5944751508129055 e (-54))
    as (mc & ec & Hc & Hmc & nc & Hnc & Hcc); [lia | cbn; lia | lia | lia |].
  destruct (SFmul_normal false false x 6034823500676465 e (-53))
    as (mh & eh & Hh & Hmh & nh & Hnh & Hch); [lia | cbn; lia | lia | lia |].
  rewrite Hc, Hh. cbn [xorb]. rewrite !SFltb_finite.
  change (2 ^ 105) with 40564819207303340847894502572032 in *.
  destruct Hnc as [[-> Hnc] | [-> Hnc]], Hnh as [[-> Hnh] | [-> Hnh]];
    change (2 ^ 52) with 4503599627370496 in *;
    change (2 ^ 53) with 9007199254740992 in *;
    destruct Hcc as [[-> Hcc] | (-> & Hcc1 & Hcc2)],
             Hch as [[-> Hch] | (-> & Hch1 & Hch2)];
    split; Z.div_mod_to_equations; lia.
Qed.

Lemma iter_xO (k p : positive) :
  Zpos (Pos.iter xO p k) = Zpos p * 2 ^ Zpos k.
Proof.
  induction k as [| k IH] using Pos.peano_ind.
  - cbn [Pos.iter]. lia.
  - rewrite Pos.iter_succ, (Pos2Z.inj_xO (Pos.iter xO p k)), IH.
    rewrite Pos2Z.inj_succ, Z.pow_succ_r by lia. ring.
Qed.

(** The float of a whole number below [2^1023] is a normal float of the
    same sign, not below 1 in magnitude. *)
Lemma binary_round_whole (sx : bool) (p : positive) :
  Zpos p < 2 ^ 1023 ->
  exists m e,
    binary_round prec emax sx p 0 = S754_finite sx m e
    /\ 2 ^ 52 <= Zpos m < 2 ^ 53 /\ -52 <= e <= 971.
Proof.
  intros Hp. unfold binary_round.
  pose proof (digits2_pos_spec p) as [Dlo Dhi].
  set (d := Zpos (digits2_pos p)) in *.
  assert (Hd0 : 0 < d) by (subst d; lia).
  assert (Hd1 : d <= 1023).
  { assert (d - 1 < 1023) by (apply (Z.pow_lt_mono_r_iff 2); lia). lia. }
  rewrite fexp_eq.
  replace (Z.max (d + 0 - 53) (-1074)) with (d - 53) by lia.
  unfold shl_align. rewrite Z.sub_0_r.
  destruct (d - 53) as [| n | n] eqn:Hn.
  - rewrite binary_round_aux_exact by (fold d; lia).
    exists p, 0. split; [reflexivity |].
    replace d with 53 in Dlo, Dhi by lia. cbn in Dlo. lia.
  - destruct (binary_round_aux_normal sx p 0 n) as (m & e & Hr & Hm & Hcases);
      [fold d; lia | lia | lia |].
    exists m, e. split; [exact Hr |]. split; [exact Hm |].
    destruct Hcases as [[-> _] | (-> & _)]; lia.
  - assert (Hdig : Zpos (digits2_pos (Pos.iter xO p n)) = 53).
    { apply digits2_pos_unique. rewrite iter_xO.
      replace (2 ^ (53 - 1)) with (2 ^ (d - 1) * 2 ^ Zpos n)
        by (rewrite <- Z.pow_add_r by lia; f_equal; lia).
      replace (2 ^ 53) with (2 ^ d * 2 ^ Zpos n)
        by (rewrite <- Z.pow_add_r by lia; f_equal; lia).
      assert (0 < 2 ^ Zpos n) by (apply Z.pow_pos_nonneg; lia).
      split; [apply Z.mul_le_mono_nonneg_r | apply Z.mul_lt_mono_pos_r]; lia. }
    rewrite binary_round_aux_exact by (rewrite ?Hdig; lia).
    do 2 eexists. split; [reflexivity |].
    pose proof (digits2_pos_spec (Pos.iter xO p n)) as HD.
    rewrite Hdig in HD. change (53 - 1) with 52 in HD. lia.
Qed.

End Rounding.

(** ** Python numbers *)

Section Numbers.

Local Open Scope Z_scope.

Lemma signed_true_le_zero (x : spec_float) :
  signed true x -> SFleb x Binary64.zero = true.
Proof. intros [-> | [-> | (m & e & ->)]]; reflexivity. Qed.

Lemma signed_false_ge_zero (x : spec_float) :
  signed false x -> SFleb Binary64.zero x = true.
Proof. intros [-> | [-> | (m & e & ->)]]; reflexivity. Qed.

(** A product with a positive finite float keeps the sign. *)
Lemma SFmul_signed (s : bool) (x : spec_float) (my : positive) (ey : Z) :
  signed s x -> signed s (SFmul prec emax x (S754_finite false my ey)).
Proof.
  intros [-> | [-> | (m & e & ->)]]; cbn [SFmul]; rewrite xorb_false_r.
  - left. reflexivity.
  - right; left. reflexivity.
  - apply binary_round_aux_signed. lia.
Qed.

Lemma binary_round_signed (sx : bool) (p : positive) (e : Z) :
  signed sx (binary_round prec emax sx p e).
Proof.
  unfold binary_round.
  destruct (shl_align p e _) as [mz ez].
  apply binary_round_aux_signed. lia.
Qed.

Lemma float_of_int_Ok (n : Z) (t : spec_float) :
  float_of_int n = Ok t -> t = binary_normalize prec emax n 0 false.
Proof.
  unfold float_of_int.
  destruct (binary_normalize prec emax n 0 false);
    intros H; try discriminate; injection H as <-; reflexivity.
Qed.

Lemma to_float_negative (elapsed : Binary64.number) (t : spec_float) :
  is_negative elapsed = true -> Binary64.to_float elapsed = Ok t ->
  signed true t.
Proof.
  destruct elapsed as [n | x]; cbn [is_negative Binary64.to_float].
  - intros Hn Ht. apply float_of_int_Ok in Ht. subst t.
    destruct n as [| p | p]; try discriminate.
    apply binary_round_signed.
  - intros Hx [= ->].
    destruct t as [s | s | | s m e]; try destruct s; try discriminate.
    + right; left. reflexivity.
    + right; right. eauto.
Qed.

Lemma to_float_positive (elapsed : Binary64.number) (t : spec_float) :
  is_positive elapsed = true -> Binary64.to_float elapsed = Ok t ->
  signed false t.
Proof.
  destruct elapsed as [n | x]; cbn [is_positive Binary64.to_float].
  - intros Hn Ht. apply float_of_int_Ok in Ht. subst t.
    destruct n as [| p | p]; try discriminate.
    apply binary_round_signed.
  - intros Hx [= ->].
    destruct t as [s | s | | s m e]; try destruct s; try discriminate.
    + right; left. reflexivity.
    + right; right. eauto.
Qed.

Lemma float_of_int_whole (n : Z) :
  n <> 0 -> - 2 ^ 1023 < n < 2 ^ 1023 ->
  exists m e,
    float_of_int n = Ok (S754_finite (n <? 0) m e)
    /\ 2 ^ 52 <= Zpos m < 2 ^ 53 /\ -52 <= e <= 971.
Proof.
  intros Hn0 Hn. unfold float_of_int.
  destruct n as [| p | p]; [contradiction | |]; cbn [binary_normalize Z.ltb Z.compare].
  - destruct (binary_round_whole false p) as (m & e & -> & Hm); [lia |].
    eauto.
  - destruct (binary_round_whole true p) as (m & e & -> & Hm); [lia |].
    eauto.
Qed.

(** A valid finite float with exponent at least -52 is normal. *)
Lemma valid_normal (s : bool) (m : positive) (e : Z) :
  valid_binary prec emax (S754_finite s m e) = true -> -52 <= e ->
  2 ^ 52 <= Zpos m < 2 ^ 53 /\ e <= 971.
Proof.
  cbn [valid_binary]. unfold bounded, canonical_mantissa.
  rewrite andb_true_iff, Z.eqb_eq, Z.leb_le, fexp_eq.
  intros [Hc He] Hlo.
  assert (Hd : Zpos (digits2_pos m) = 53) by lia.
  pose proof (digits2_pos_spec m) as HD. rewrite Hd in HD.
  change (53 - 1) with 52 in HD. unfold emax, prec in He. lia.
Qed.

Lemma at_least_one_second_normal (elapsed : Binary64.number) :
  at_least_one_second elapsed ->
  exists m e,
    Binary64.to_float elapsed = Ok (S754_finite false m e)
    /\ 2 ^ 52 <= Zpos m < 2 ^ 53 /\ -52 <= e <= 971.
Proof.
  destruct elapsed as [n | x]; cbn [at_least_one_second Binary64.to_float].
  - intros Hn.
    destruct (float_of_int_whole n) as (m & e & Hf & Hm); [lia | lia |].
    replace (n <? 0) with false in Hf by (symmetry; apply Z.ltb_ge; lia).
    eauto.
  - intros (Hvalid & Hfin & Hle).
    destruct x as [s | s | | s m e]; try discriminate.
    destruct s; [discriminate |].
    unfold Binary64.one in Hle. rewrite SFleb_finite in Hle.
    destruct (valid_normal false m e Hvalid) as [Hm He]; [lia |].
    exists m, e. split; [reflexivity |]. lia.
Qed.

Lemma at_most_minus_one_second_normal (elapsed : Binary64.number) :
  at_most_minus_one_second elapsed ->
  exists m e,
    Binary64.to_float elapsed = Ok (S754_finite true m e)
    /\ 2 ^ 52 <= Zpos m < 2 ^ 53 /\ -52 <= e <= 971.
Proof.
  destruct elapsed as [n | x];
    cbn [at_most_minus_one_second Binary64.to_float].
  - intros Hn.
    destruct (float_of_int_whole n) as (m & e & Hf & Hm); [lia | lia |].
    replace (n <? 0) with true in Hf by (symmetry; apply Z.ltb_lt; lia).
    eauto.
  - intros (Hvalid & Hfin & Hle).
    destruct x as [s | s | | s m e]; try discriminate.
    destruct s; [| discriminate].
    assert (He : -52 <= e).
    { unfold Binary64.one, SFopp, SFleb, SFcompare in Hle. cbn [negb] in Hle.
      destruct (Z.compare_spec e (-52)); try discriminate; lia. }
    destruct (valid_normal true m e Hvalid He) as [Hm He'].
    exists m, e. split; [reflexivity |]. lia.
Qed.

End Numbers.

(** ** Spread model in binary64 *)

Section SpreadModel.

Local Open Scope Z_scope.

Lemma SPREAD_RATES_64_normal (hazard_type : string) (rate : spec_float) :
  Binary64.SPREAD_RATES !! hazard_type = Some rate ->
  exists m e,
    rate = S754_finite false m e
    /\ 2 ^ 52 <= Zpos m < 2 ^ 53 /\ -63 <= e <= -60.
Proof.
  intros H. apply (elem_of_list_to_map_2 (M := gmap string)) in H.
  repeat match goal with
         | H : _ ∈ _ :: _ |- _ =>
             apply elem_of_cons in H; destruct H as [H | H]
         | H : _ ∈ [] |- _ => apply elem_of_nil in H; contradiction
         | H : (_, _) = (_, _) |- _ => injection H as _ ->
         end;
    do 2 eexists; (split; [vm_compute; reflexivity | cbn; lia]).
Qed.

Lemma spread_rate_64_normal (hazard : Binary64.Hazard) :
  exists m e,
    Binary64.spread_rate_of hazard = S754_finite false m e
    /\ 2 ^ 52 <= Zpos m < 2 ^ 53 /\ -63 <= e <= -60.
Proof.
  unfold Binary64.spread_rate_of.
  destruct (Binary64.SPREAD_RATES !! get (Binary64.type hazard) "Gas Leak")
    as [rate |] eqn:H; cbn [get].
  - eapply SPREAD_RATES_64_normal, H.
  - do 2 eexists. split; [vm_compute; reflexivity | cbn; lia].
Qed.

Lemma zones_at_time
    (hazard : Binary64.Hazard) (elapsed : Binary64.number) (t : spec_float) :
  Binary64.to_float elapsed = Ok t ->
  let max_radius := SFmul prec emax t (Binary64.spread_rate_of hazard) in
  Binary64.calculate_danger_zones hazard elapsed
  = Ok [ Binary64.mkDangerZone "critical"
           (SFmul prec emax max_radius (Binary64.float_literal 33 100))
           "#ef4444" "critical" 1;
         Binary64.mkDangerZone "high"
           (SFmul prec emax max_radius (Binary64.float_literal 67 100))
           "#f97316" "high" 3;
         Binary64.mkDangerZone "medium" max_radius "#eab308" "medium" 5 ].
Proof.
  intros Ht. unfold Binary64.calculate_danger_zones, Binary64.mul_float.
  rewrite Ht. reflexivity.
Qed.

(** The largest radius after at least one second, or at most minus one
    second, is a normal float of the sign of the time. *)
Lemma max_radius_normal
    (hazard : Binary64.Hazard) (s : bool) (m : positive) (e : Z) :
  2 ^ 52 <= Zpos m < 2 ^ 53 -> -52 <= e <= 971 ->
  exists m' e',
    SFmul prec emax (S754_finite s m e) (Binary64.spread_rate_of hazard)
    = S754_finite s m' e'
    /\ 2 ^ 52 <= Zpos m' < 2 ^ 53 /\ -1072 <= e' <= 970.
Proof.
  intros Hm He.
  destruct (spread_rate_64_normal hazard) as (mr & er & -> & Hmr & Her).
  destruct (SFmul_normal s false m mr e er)
    as (m' & e' & Hmul & Hm' & n & Hn & Hcases); [lia .. |].
  rewrite xorb_false_r in Hmul.
  exists m', e'. split; [exact Hmul |]. split; [exact Hm' |].
  destruct Hn as [[-> _] | [-> _]], Hcases as [[-> _] | (-> & _)]; lia.
Qed.

Lemma fraction_normal (s : bool) (m : positive) (e : Z) (c : spec_float) :
  c = Binary64.float_literal 33 100 \/ c = Binary64.float_literal 67 100 ->
  2 ^ 52 <= Zpos m < 2 ^ 53 -> -1072 <= e <= 970 ->
  exists m' e', SFmul prec emax (S754_finite s m e) c = S754_finite s m' e'.
Proof.
  intros Hc Hm He.
  assert (Hc' : exists mc ec,
             c = S754_finite false mc ec
             /\ 2 ^ 52 <= Zpos mc < 2 ^ 53 /\ -54 <= ec <= -53).
  { destruct Hc as [-> | ->]; do 2 eexists;
      (split; [vm_compute; reflexivity | cbn; lia]). }
  destruct Hc' as (mc & ec & -> & Hmc & Hec).
  destruct (SFmul_normal s false m mc e ec)
    as (m' & e' & Hmul & _); [lia .. |].
  rewrite xorb_false_r in Hmul. eauto.
Qed.

End SpreadModel.

(** C2, as stated, fails: one second before the report (elapsed time -1)
    the three radii of a Gas Leak are the floats -0.00066, -0.00134 and
    -0.002, none of them zero, where max(elapsed, 0) * rate is 0.0. *)
Lemma negative_elapsed_time_radii_not_zero :
  exists zones,
    Binary64.calculate_danger_zones gas_leak_64 (Binary64.PyInt (-1))
    = Ok zones
    /\ map Binary64.radius zones
       = [ SFopp (Binary64.float_literal 66 100000);
           SFopp (Binary64.float_literal 134 100000);
           SFopp (Binary64.float_literal 2 1000) ]
    /\ Forall
         (fun zone => SFeqb (Binary64.radius zone) Binary64.zero = false)
         zones
    /\ clamp (Binary64.PyInt (-1)) = Binary64.PyInt 0
    /\ Binary64.mul_float (clamp (Binary64.PyInt (-1)))
         (Binary64.spread_rate_of gas_leak_64)
       = Ok Binary64.zero.
Proof.
  eexists. split; [vm_compute; reflexivity |].
  split; [reflexivity |].
  split; [repeat constructor |].
  split; reflexivity.
Qed.

(** C2 (amended): for every hazard and every elapsed time that converts to
    a float, the danger-zone computation uses maxRadius = elapsedSeconds *
    spreadRate with no clamping: the radii are maxRadius * 0.33, maxRadius
    * 0.67 and maxRadius, in binary64.  For an elapsed time that is not
    negative this is the computation on max(elapsedSeconds, 0).  For a
    negative elapsed time no radius is positive (each is <= 0), and for an
    elapsed time of at most -1 (a whole number above -2^1023, or a finite
    float) all three radii are negative, not zero. *)
Theorem danger_zone_radii_unclamped
    (hazard : Binary64.Hazard) (elapsed : Binary64.number) (t : spec_float) :
  Binary64.to_float elapsed = Ok t ->
  let max_radius := SFmul prec emax t (Binary64.spread_rate_of hazard) in
  exists zones,
    Binary64.calculate_danger_zones hazard elapsed = Ok zones
    /\ map Binary64.radius zones
       = [ SFmul prec emax max_radius (Binary64.float_literal 33 100);
           SFmul prec emax max_radius (Binary64.float_literal 67 100);
           max_radius ]
    /\ (is_negative elapsed = false ->
        Binary64.calculate_danger_zones hazard (clamp elapsed) = Ok zones)
    /\ (is_negative elapsed = true ->
        Forall
          (fun zone => SFleb (Binary64.radius zone) Binary64.zero = true)
          zones)
    /\ (at_most_minus_one_second elapsed ->
        Forall
          (fun zone => SFltb (Binary64.radius zone) Binary64.zero = true)
          zones).
Proof.
  intros Ht max_radius. eexists.
  split; [apply zones_at_time, Ht |]. fold max_radius.
  split; [reflexivity |]. split; [| split].
  - intros Hneg. unfold clamp. rewrite Hneg.
    apply zones_at_time, Ht.
  - intros Hneg.
    pose proof (to_float_negative elapsed t Hneg Ht) as Hsigned.
    destruct (spread_rate_64_normal hazard) as (mr & er & Hrate & _).
    assert (Hmax : signed true max_radius)
      by (unfold max_radius; rewrite Hrate; apply SFmul_signed, Hsigned).
    repeat constructor; cbn [Binary64.radius];
      apply signed_true_le_zero; [| | exact Hmax];
      apply SFmul_signed, Hmax.
  - intros Hone.
    destruct (at_most_minus_one_second_normal elapsed Hone)
      as (m & e & Ht' & Hm & He).
    rewrite Ht in Ht'. injection Ht' as ->.
    destruct (max_radius_normal hazard true m e Hm He)
      as (m' & e' & Hmax & Hm' & He').
    fold max_radius in Hmax.
    destruct (fraction_normal true m' e' (Binary64.float_literal 33 100))
      as (mc & ec & Hc); [auto | assumption | assumption |].
    destruct (fraction_normal true m' e' (Binary64.float_literal 67 100))
      as (mh & eh & Hh); [auto | assumption | assumption |].
    repeat constructor; cbn [Binary64.radius];
      rewrite ?Hmax, ?Hc, ?Hh; reflexivity.
Qed.

Lemma danger_zone_radii_unclamped_witness :
  exists zones,
    Binary64.calculate_danger_zones gas_leak_64 (Binary64.PyInt (-5))
    = Ok zones
    /\ Forall
         (fun zone => SFltb (Binary64.radius zone) Binary64.zero = true)
         zones.
Proof.
  destruct (danger_zone_radii_unclamped gas_leak_64 (Binary64.PyInt (-5))
              (S754_finite true 5629499534213120 (-50)) eq_refl)
    as (zones & Hzones & _ & _ & _ & Hneg).
  exists zones. split; [exact Hzones |].
  apply Hneg. cbn. lia.
Defined.




(** ** Exposure evaluator in binary64 *)

Lemma severity_buckets_lookup
    (c h m bucket : list Binary64.AffectedWorker) (lvl : string) :
  severity_buckets c h m !! lvl = Some bucket ->
  (lvl = "critical" /\ bucket = c)
  \/ (lvl = "high" /\ bucket = h)
  \/ (lvl = "medium" /\ bucket = m).
Proof.
  intros H. apply (elem_of_list_to_map_2 (M := gmap string)) in H.
  repeat match goal with
         | H : _ ∈ _ :: _ |- _ =>
             apply elem_of_cons in H; destruct H as [H | H]
         | H : _ ∈ [] |- _ => apply elem_of_nil in H; contradiction
         | H : (_, _) = (_, _) |- _ => injection H as -> ->
         end; tauto.
Qed.

Section Exposure64.

Variable square : spec_float -> spec_float.
Variable hazard : Binary64.Hazard.

(** The loop body computes the Euclidean distance and then decides on it
    alone. *)
Lemma visit_worker_at_distance
    (zones : list Binary64.DangerZone)
    (affected : gmap string (list Binary64.AffectedWorker))
    (w : Binary64.Worker) (d : spec_float) :
  euclidean_distance square hazard w = Ok d ->
  Binary64.visit_worker square hazard zones affected w
  = match find (fun zone => SFleb d (Binary64.radius zone)) zones with
    | None => Ok affected
    | Some zone =>
        match affected !! Binary64.level zone with
        | None => Raise (KeyError (Binary64.level zone))
        | Some bucket =>
            match Binary64.type hazard with
            | None => Raise (KeyError "type")
            | Some hazard_type =>
                Ok (<[Binary64.level zone :=
                        (bucket
                         ++ [affected_record hazard_type
                               (Binary64.level zone) d w])%list]> affected)
            end
        end
    end.
Proof.
  unfold euclidean_distance, Binary64.visit_worker.
  destruct (Binary64.sub (get (Binary64.w_lat w) _) _) as [dx | ? ];
    cbn [bind]; [| discriminate].
  destruct (Binary64.sub (get (Binary64.w_lng w) _) _) as [dy | ? ];
    cbn [bind]; [| discriminate].
  destruct (Binary64.pow2 square dx) as [dx2 | ? ]; cbn [bind];
    [| discriminate].
  destruct (Binary64.pow2 square dy) as [dy2 | ? ]; cbn [bind];
    [| discriminate].
  destruct (Binary64.add dx2 dy2) as [sum | ? ]; cbn [bind];
    [| discriminate].
  intros ->. cbn [bind]. reflexivity.
Qed.

Variable distance : Binary64.Worker -> spec_float.
Variables critical high medium : Binary64.DangerZone.
Hypothesis critical_level : Binary64.level critical = "critical".
Hypothesis high_level : Binary64.level high = "high".
Hypothesis medium_level : Binary64.level medium = "medium".

Let zones := [critical; high; medium].

Let part (hazard_type : string) (lvl : string) (w : Binary64.Worker)
    : list Binary64.AffectedWorker :=
  if first_within distance critical high medium lvl w
  then [affected_record hazard_type lvl (distance w) w] else [].

Lemma visit_worker_typed
    (hazard_type : string) (c h m : list Binary64.AffectedWorker)
    (w : Binary64.Worker) :
  Binary64.type hazard = Some hazard_type ->
  euclidean_distance square hazard w = Ok (distance w) ->
  Binary64.visit_worker square hazard zones (severity_buckets c h m) w
  = Ok (severity_buckets (c ++ part hazard_type "critical" w)
          (h ++ part hazard_type "high" w)
          (m ++ part hazard_type "medium" w)).
Proof.
  intros Htype Hd. rewrite (visit_worker_at_distance _ _ _ _ Hd).
  unfold zones, part, first_within, within. cbn [find String.eqb].
  rewrite Htype.
  destruct (SFleb (distance w) (Binary64.radius critical)); cbn [negb andb];
    [rewrite critical_level
    | destruct (SFleb (distance w) (Binary64.radius high)); cbn [negb andb];
      [rewrite high_level
      | destruct (SFleb (distance w) (Binary64.radius medium));
        [rewrite medium_level |] ] ];
    rewrite ?app_nil_r; reflexivity.
Qed.

Lemma for_workers_typed (hazard_type : string) (workers : list Binary64.Worker) :
  Binary64.type hazard = Some hazard_type ->
  (forall w, In w workers ->
             euclidean_distance square hazard w = Ok (distance w)) ->
  forall c h m : list Binary64.AffectedWorker,
    Binary64.for_workers square hazard zones workers (severity_buckets c h m)
    = Ok (severity_buckets
            (c ++ map (fun w => affected_record hazard_type "critical"
                                  (distance w) w)
                   (List.filter
                      (first_within distance critical high medium "critical")
                      workers))
            (h ++ map (fun w => affected_record hazard_type "high"
                                  (distance w) w)
                   (List.filter
                      (first_within distance critical high medium "high")
                      workers))
            (m ++ map (fun w => affected_record hazard_type "medium"
                                  (distance w) w)
                   (List.filter
                      (first_within distance critical high medium "medium")
                      workers))).
Proof.
  intros Htype. induction workers as [| w workers IH]; intros Hd c h m.
  - cbn [Binary64.for_workers List.filter map]. rewrite !app_nil_r.
    reflexivity.
  - cbn [Binary64.for_workers].
    rewrite (visit_worker_typed hazard_type) by (auto using in_eq).
    cbn [bind]. rewrite IH by (intros; apply Hd; right; assumption).
    cbn [List.filter]. unfold part.
    destruct (first_within distance critical high medium "critical" w),
             (first_within distance critical high medium "high" w),
             (first_within distance critical high medium "medium" w);
      cbn [map]; rewrite <- ?app_assoc; reflexivity.
Qed.

(** Without the 'type' key the first worker found within a zone ends the
    loop with [KeyError]. *)
Lemma for_workers_untyped (workers : list Binary64.Worker) :
  Binary64.type hazard = None ->
  (forall w, In w workers ->
             euclidean_distance square hazard w = Ok (distance w)) ->
  Binary64.for_workers square hazard zones workers (severity_buckets [] [] [])
  = if existsb (fun w => existsb (fun zone => within distance zone w) zones)
         workers
    then Raise (KeyError "type")
    else Ok (severity_buckets [] [] []).
Proof.
  intros Htype. induction workers as [| w workers IH]; intros Hd.
  - reflexivity.
  - cbn [Binary64.for_workers existsb].
    rewrite (visit_worker_at_distance _ _ _ _ (Hd w (in_eq _ _))).
    unfold zones at 1 3, within. cbn [find existsb]. rewrite Htype.
    destruct (SFleb (distance w) (Binary64.radius critical)); cbn [orb];
      [rewrite critical_level; reflexivity |].
    destruct (SFleb (distance w) (Binary64.radius high)); cbn [orb];
      [rewrite high_level; reflexivity |].
    destruct (SFleb (distance w) (Binary64.radius medium)); cbn [orb];
      [rewrite medium_level; reflexivity |].
    cbn [bind]. apply IH. intros; apply Hd; right; assumption.
Qed.

End Exposure64.



Lemma get_affected_workers_typed
    (square : spec_float -> spec_float)
    (hazard : Binary64.Hazard) (hazard_type : string)
    (workers : list Binary64.Worker) (elapsed : Binary64.number)
    (t : spec_float) (distance : Binary64.Worker -> spec_float) :
  Binary64.type hazard = Some hazard_type ->
  Binary64.to_float elapsed = Ok t ->
  (forall w, In w workers ->
             euclidean_distance square hazard w = Ok (distance w)) ->
  exists critical high medium,
    Binary64.calculate_danger_zones hazard elapsed
    = Ok [critical; high; medium]
    /\ Binary64.get_affected_workers square hazard workers elapsed
       = Ok (severity_buckets
               (map (fun w => affected_record hazard_type "critical"
                                (distance w) w)
                  (List.filter
                     (first_within distance critical high medium "critical")
                     workers))
               (map (fun w => affected_record hazard_type "high"
                                (distance w) w)
                  (List.filter
                     (first_within distance critical high medium "high")
                     workers))
               (map (fun w => affected_record hazard_type "medium"
                                (distance w) w)
                  (List.filter
                     (first_within distance critical high medium "medium")
                     workers)))
    /\ (is_positive elapsed = true ->
        SFleb Binary64.zero (Binary64.radius critical) = true).
Proof.
  intros Htype Ht Hd. unfold Binary64.get_affected_workers.
  rewrite (zones_at_time hazard elapsed t Ht). cbn [bind].
  change Binary64.empty_affected with (severity_buckets [] [] []).
  set (max_radius := SFmul prec emax t (Binary64.spread_rate_of hazard)).
  set (critical :=
         Binary64.mkDangerZone "critical"
           (SFmul prec emax max_radius (Binary64.float_literal 33 100))
           "#ef4444" "critical" 1).
  set (high :=
         Binary64.mkDangerZone "high"
           (SFmul prec emax max_radius (Binary64.float_literal 67 100))
           "#f97316" "high" 3).
  set (medium :=
         Binary64.mkDangerZone "medium" max_radius "#eab308" "medium" 5).
  exists critical, high, medium.
  split; [reflexivity |]. split.
  - rewrite (for_workers_typed square hazard distance critical high medium
               eq_refl eq_refl eq_refl hazard_type workers Htype Hd).
    reflexivity.
  - intros Hpos. cbn [Binary64.radius critical]. unfold max_radius.
    pose proof (to_float_positive elapsed t Hpos Ht) as Hsigned.
    destruct (spread_rate_64_normal hazard) as (mr & er & -> & _).
    apply signed_false_ge_zero.
    change (Binary64.float_literal 33 100)
      with (S754_finite false 5944751508129055 (-54)).
    apply SFmul_signed, SFmul_signed, Hsigned.
Qed.

(** When the distance of a worker cannot be computed (an [int] too large
    for a [float], a square that overflows), the call raises. *)
Lemma visit_worker_raises
    (square : spec_float -> spec_float) (hazard : Binary64.Hazard)
    (zones : list Binary64.DangerZone)
    (affected : gmap string (list Binary64.AffectedWorker))
    (w : Binary64.Worker) (e : exn) :
  euclidean_distance square hazard w = Raise e ->
  exists e', Binary64.visit_worker square hazard zones affected w = Raise e'.
Proof.
  unfold euclidean_distance, Binary64.visit_worker.
  destruct (Binary64.sub (get (Binary64.w_lat w) _) _) as [dx | ? ];
    cbn [bind]; [| eauto].
  destruct (Binary64.sub (get (Binary64.w_lng w) _) _) as [dy | ? ];
    cbn [bind]; [| destruct (Binary64.pow2 square dx); cbn [bind]; eauto].
  destruct (Binary64.pow2 square dx) as [dx2 | ? ]; cbn [bind]; [| eauto].
  destruct (Binary64.pow2 square dy) as [dy2 | ? ]; cbn [bind]; [| eauto].
  destruct (Binary64.add dx2 dy2) as [sum | ? ]; cbn [bind]; [| eauto].
  intros ->. cbn [bind]. eauto.
Qed.

Lemma get_affected_workers_raises
    (square : spec_float -> spec_float) (hazard : Binary64.Hazard)
    (workers : list Binary64.Worker) (elapsed : Binary64.number)
    (w : Binary64.Worker) (e : exn) :
  In w workers -> euclidean_distance square hazard w = Raise e ->
  exists e',
    Binary64.get_affected_workers square hazard workers elapsed = Raise e'.
Proof.
  intros Hw He. unfold Binary64.get_affected_workers.
  destruct (Binary64.calculate_danger_zones hazard elapsed) as [zones | ? ];
    cbn [bind]; [| eauto].
  generalize Binary64.empty_affected.
  induction workers as [| w0 workers IH]; intros affected; [destruct Hw |].
  cbn [Binary64.for_workers].
  destruct Hw as [-> | Hw].
  - destruct (visit_worker_raises square hazard zones affected w e He)
      as (e' & ->).
    cbn [bind]. eauto.
  - destruct (Binary64.visit_worker square hazard zones affected w0);
      cbn [bind]; eauto.
Qed.



(** X4: for a hazard dictionary without its 'type' key, with [distance w]
    the Euclidean distance of each worker as Python computes it,
    get_affected_workers raises KeyError('type') exactly when some worker
    of the list is within one of the three zones (the lookup
    hazard['type'] is only reached then); otherwise it returns the three
    empty buckets. *)
Theorem exposure_without_type_key
    (square : spec_float -> spec_float)
    (hazard : Binary64.Hazard) (workers : list Binary64.Worker)
    (elapsed : Binary64.number) (t : spec_float)
    (distance : Binary64.Worker -> spec_float) :
  Binary64.type hazard = None ->
  Binary64.to_float elapsed = Ok t ->
  (forall w, In w workers ->
             euclidean_distance square hazard w = Ok (distance w)) ->
  exists critical high medium,
    Binary64.calculate_danger_zones hazard elapsed
    = Ok [critical; high; medium]
    /\ Binary64.get_affected_workers square hazard workers elapsed
       = if existsb
              (fun w =>
                 existsb (fun zone => within distance zone w)
                   [critical; high; medium])
              workers
         then Raise (KeyError "type")
         else Ok (severity_buckets [] [] []).
Proof.
  intros Htype Ht Hd. unfold Binary64.get_affected_workers.
  rewrite (zones_at_time hazard elapsed t Ht). cbn [bind].
  change Binary64.empty_affected with (severity_buckets [] [] []).
  do 3 eexists. split; [reflexivity |].
  apply for_workers_untyped; auto.
Qed.

Lemma exposure_without_type_key_witness :
  let hazard :=
    {| Binary64.type := None;
       Binary64.location := Binary64.location gas_leak_64 |} in
  let worker :=
    {| Binary64.w_id := Some "W001"; Binary64.w_name := None;
       Binary64.w_role := None; Binary64.w_sector := None;
       Binary64.w_lat :=
         Some (Binary64.PyFloat (Binary64.float_literal 2 1000));
       Binary64.w_lng := None |} in
  Binary64.get_affected_workers Binary64.correctly_rounded_square
    hazard [worker] (Binary64.PyInt 1)
  = Raise (KeyError "type").
Proof.
  intros hazard worker.
  destruct (exposure_without_type_key Binary64.correctly_rounded_square
              hazard [worker] (Binary64.PyInt 1)
              (S754_finite false 4503599627370496 (-52))
              (measured hazard) eq_refl eq_refl)
    as (critical & high & medium & Hzones & Hres).
  - intros w [<- | []]. reflexivity.
  - rewrite Hres. vm_compute in Hzones. injection Hzones as <- <- <-.
    reflexivity.
Defined.

(** Whatever is at most a positive finite float is at most every larger
    one. *)
Lemma SFleb_below_larger (d : spec_float) (m1 m2 : positive) (e1 e2 : Z) :
  SFleb d (S754_finite false m1 e1) = true ->
  SFltb (S754_finite false m1 e1) (S754_finite false m2 e2) = true ->
  SFleb d (S754_finite false m2 e2) = true.
Proof.
  intros Hle Hlt. destruct d as [s | [] | | [] m e]; try discriminate;
    try reflexivity.
  rewrite SFleb_finite in *. rewrite SFltb_finite in Hlt. lia.
Qed.

(** From one second on the zones are nested: whoever is within the
    critical zone is within the high zone, whoever is within the high zone
    is within the medium zone. *)
Lemma zones_nested_from_one_second
    (hazard : Binary64.Hazard) (elapsed : Binary64.number) :
  at_least_one_second elapsed ->
  exists critical high medium,
    Binary64.calculate_danger_zones hazard elapsed
    = Ok [critical; high; medium]
    /\ forall d,
        (SFleb d (Binary64.radius critical) = true ->
         SFleb d (Binary64.radius high) = true)
        /\ (SFleb d (Binary64.radius high) = true ->
            SFleb d (Binary64.radius medium) = true).
Proof.
  intros Hone.
  destruct (at_least_one_second_normal elapsed Hone)
    as (m & e & Ht & Hm & He).
  rewrite (zones_at_time hazard elapsed _ Ht).
  destruct (max_radius_normal hazard false m e Hm He)
    as (m' & e' & Hmax & Hm' & He').
  do 3 eexists. split; [reflexivity |]. cbn [Binary64.radius].
  rewrite Hmax.
  destruct (fractions_strictly_nested m' e' Hm' He') as [Hch Hhm].
  destruct (fraction_normal false m' e' (Binary64.float_literal 33 100))
    as (mc & ec & Hc); [auto | assumption | assumption |].
  destruct (fraction_normal false m' e' (Binary64.float_literal 67 100))
    as (mh & eh & Hh); [auto | assumption | assumption |].
  rewrite Hc, Hh in *.
  intros d. split; intros Hd; eapply SFleb_below_larger; eassumption.
Qed.

(** X5: for a hazard with a type, the number of affected workers
    (critical + high + medium, as the simulation endpoint counts them) is
    the number of workers of the list that are within at least one of the
    three zones: every such worker is counted once.  From one second on it
    is the number of workers within the medium radius, the product of the
    elapsed time and the spread rate. *)
Theorem affected_total_counts_each_worker_once
    (square : spec_float -> spec_float)
    (hazard : Binary64.Hazard) (hazard_type : string)
    (workers : list Binary64.Worker) (elapsed : Binary64.number)
    (t : spec_float) (distance : Binary64.Worker -> spec_float) :
  Binary64.type hazard = Some hazard_type ->
  Binary64.to_float elapsed = Ok t ->
  (forall w, In w workers ->
             euclidean_distance square hazard w = Ok (distance w)) ->
  exists critical high medium affected,
    Binary64.calculate_danger_zones hazard elapsed
    = Ok [critical; high; medium]
    /\ Binary64.get_affected_workers square hazard workers elapsed
       = Ok affected
    /\ affected_count affected
       = List.length
           (List.filter
              (fun w =>
                 existsb (fun zone => within distance zone w)
                   [critical; high; medium])
              workers)
    /\ (at_least_one_second elapsed ->
        Binary64.radius medium
        = SFmul prec emax t (Binary64.spread_rate_of hazard)
        /\ affected_count affected
           = List.length (List.filter (within distance medium) workers)).
Proof.
  intros Htype Ht Hd.
  destruct (get_affected_workers_typed square hazard hazard_type workers
              elapsed t distance Htype Ht Hd)
    as (critical & high & medium & Hzones & Hres & _).
  exists critical, high, medium. eexists.
  split; [exact Hzones |]. split; [exact Hres |].
  assert (Hcount :
            affected_count
              (severity_buckets
                 (map (fun w => affected_record hazard_type "critical"
                                  (distance w) w)
                    (List.filter
                       (first_within distance critical high medium
                          "critical") workers))
                 (map (fun w => affected_record hazard_type "high"
                                  (distance w) w)
                    (List.filter
                       (first_within distance critical high medium "high")
                       workers))
                 (map (fun w => affected_record hazard_type "medium"
                                  (distance w) w)
                    (List.filter
                       (first_within distance critical high medium
                          "medium") workers)))
            = List.length
                (List.filter
                   (fun w =>
                      existsb (fun zone => within distance zone w)
                        [critical; high; medium])
                   workers)).
  { unfold affected_count.
    change (severity_buckets ?c ?h ?m !! "critical") with (Some c).
    change (severity_buckets ?c ?h ?m !! "high") with (Some h).
    change (severity_buckets ?c ?h ?m !! "medium") with (Some m).
    cbn [get]. rewrite !length_map.
    apply partition_lengths; unfold first_within;
      cbn [String.eqb Ascii.eqb Bool.eqb existsb];
      intros w;
      destruct (within distance critical w), (within distance high w),
               (within distance medium w); cbn [negb andb orb]; auto. }
  split; [exact Hcount |].
  intros Hone.
  destruct (zones_nested_from_one_second hazard elapsed Hone)
    as (c' & h' & m' & Hzones' & Hnested).
  rewrite Hzones in Hzones'. injection Hzones' as <- <- <-.
  split.
  { rewrite (zones_at_time hazard elapsed t Ht) in Hzones.
    injection Hzones as _ _ <-. reflexivity. }
  rewrite Hcount. f_equal. apply filter_ext. intros w.
  cbn [existsb]. unfold within.
  destruct (Hnested (distance w)) as [Hch Hhm].
  destruct (SFleb (distance w) (Binary64.radius critical)) eqn:Ec;
    [rewrite (Hhm (Hch eq_refl)); reflexivity |].
  destruct (SFleb (distance w) (Binary64.radius high)) eqn:Eh;
    [rewrite (Hhm eq_refl); reflexivity |].
  cbn [orb]. apply orb_false_r.
Qed.

Lemma affected_total_counts_each_worker_once_witness :
  exists affected,
    Binary64.get_affected_workers Binary64.correctly_rounded_square
      fire_at_W001_64 MOCK_WORKERS_64 (Binary64.PyInt 1)
    = Ok affected
    /\ affected_count affected = 2%nat.
Proof.
  destruct (affected_total_counts_each_worker_once
              Binary64.correctly_rounded_square
              fire_at_W001_64 "Fire" MOCK_WORKERS_64 (Binary64.PyInt 1)
              (S754_finite false 4503599627370496 (-52))
              (measured fire_at_W001_64) eq_refl eq_refl)
    as (critical & high & medium & affected & Hzones & Hres & _ & Hcount).
  - intros w [<- | [<- | [<- | [<- | []]]]]; reflexivity.
  - exists affected. split; [exact Hres |].
    destruct Hcount as [_ Hcount]; [cbn; lia |].
    rewrite Hcount. vm_compute in Hzones. injection Hzones as <- <- <-.
    reflexivity.
Defined.

(** X7: from one second on, a worker of the list whose distance is not
    within the medium radius (the product of the elapsed time and the
    spread rate) is the first of no zone, and, the worker ids being
    pairwise distinct, no record of any bucket carries its id. *)
Theorem far_worker_is_never_inside
    (square : spec_float -> spec_float)
    (hazard : Binary64.Hazard) (hazard_type : string)
    (workers : list Binary64.Worker) (elapsed : Binary64.number)
    (t : spec_float) (distance : Binary64.Worker -> spec_float) :
  Binary64.type hazard = Some hazard_type ->
  Binary64.to_float elapsed = Ok t ->
  at_least_one_second elapsed ->
  (forall w, In w workers ->
             euclidean_distance square hazard w = Ok (distance w)) ->
  exists affected,
    Binary64.get_affected_workers square hazard workers elapsed
    = Ok affected
    /\ forall w,
        In w workers ->
        SFleb (distance w)
          (SFmul prec emax t (Binary64.spread_rate_of hazard)) = false ->
        NoDup (map Binary64.w_id workers) ->
        forall lvl bucket e,
          affected !! lvl = Some bucket -> In e bucket ->
          Binary64.worker_id e <> Binary64.w_id w.
Proof.
  intros Htype Ht Hone Hd.
  destruct (get_affected_workers_typed square hazard hazard_type workers
              elapsed t distance Htype Ht Hd)
    as (critical & high & medium & Hzones & Hres & _).
  eexists. split; [exact Hres |].
  intros w Hw Hfar Hnd lvl bucket e Hlookup He Hid.
  destruct (zones_nested_from_one_second hazard elapsed Hone)
    as (c' & h' & m' & Hzones' & Hnested).
  rewrite Hzones in Hzones'. injection Hzones' as <- <- <-.
  assert (Hmedium :
            Binary64.radius medium
            = SFmul prec emax t (Binary64.spread_rate_of hazard)).
  { rewrite (zones_at_time hazard elapsed t Ht) in Hzones.
    injection Hzones as _ _ <-. reflexivity. }
  rewrite <- Hmedium in Hfar.
  destruct (Hnested (distance w)) as [Hch Hhm].
  assert (Hnone : forall lvl',
             first_within distance critical high medium lvl' w = false).
  { intros lvl'. unfold first_within, within.
    destruct (SFleb (distance w) (Binary64.radius critical)) eqn:Ec;
      [rewrite (Hhm (Hch eq_refl)) in Hfar; discriminate |].
    destruct (SFleb (distance w) (Binary64.radius high)) eqn:Eh;
      [rewrite (Hhm eq_refl) in Hfar; discriminate |].
    rewrite Hfar.
    destruct (String.eqb lvl' "critical"), (String.eqb lvl' "high"),
             (String.eqb lvl' "medium"); reflexivity. }
  assert (Hsame : forall w',
             In w' workers ->
             Binary64.worker_id e = Binary64.w_id w' -> w' = w).
  { intros w' Hw' Hid'.
    apply (NoDup_map_injective Binary64.w_id workers);
      [assumption .. | congruence]. }
  apply severity_buckets_lookup in Hlookup.
  destruct Hlookup as [[-> ->] | [[-> ->] | [-> ->]]];
    apply in_map_iff in He; destruct He as (w' & <- & Hin);
    apply filter_In in Hin; destruct Hin as [Hw' Hpred];
    rewrite (Hsame w' Hw' eq_refl) in Hpred;
    rewrite Hnone in Hpred; discriminate.
Qed.

Lemma far_worker_is_never_inside_witness :
  exists affected,
    Binary64.get_affected_workers Binary64.correctly_rounded_square
      fire_at_W001_64 MOCK_WORKERS_64 (Binary64.PyInt 1)
    = Ok affected
    /\ forall lvl bucket e,
        affected !! lvl = Some bucket -> In e bucket ->
        Binary64.worker_id e <> Some "W002".
Proof.
  destruct (far_worker_is_never_inside Binary64.correctly_rounded_square
              fire_at_W001_64 "Fire" MOCK_WORKERS_64 (Binary64.PyInt 1)
              (S754_finite false 4503599627370496 (-52))
              (measured fire_at_W001_64) eq_refl eq_refl)
    as (affected & Hres & Hfar).
  - cbn. lia.
  - intros w [<- | [<- | [<- | [<- | []]]]]; reflexivity.
  - exists affected. split; [exact Hres |].
    intros lvl bucket e Hlookup He.
    apply (Hfar (nth 1 MOCK_WORKERS_64 (Binary64.mkWorker None None None
                                          None None None)))
      with (lvl := lvl) (bucket := bucket); try assumption.
    + right; left. reflexivity.
    + reflexivity.
    + repeat constructor; cbn; intros H;
        repeat (apply elem_of_cons in H; destruct H as [H | H];
                [discriminate |]);
        apply elem_of_nil in H; exact H.
Defined.

(** Inputs on which binary64 and exact arithmetic part: nine seconds
    after an SOS at the origin the medium radius is the float [9 * 0.004 =
    0.036000000000000004], above the float [0.036], so a worker at that
    distance is in the medium bucket; at -1e-322 seconds the radii of a gas
    leak are -0.0; at -(10^400) seconds the product raises
    [OverflowError]. *)
Example binary64_boundaries :
  match
    Binary64.get_affected_workers Binary64.correctly_rounded_square
      {| Binary64.type := Some "SOS - EMERGENCY";
         Binary64.location := Binary64.location gas_leak_64 |}
      [ {| Binary64.w_id := Some "W001"; Binary64.w_name := None;
           Binary64.w_role := None; Binary64.w_sector := None;
           Binary64.w_lat :=
             Some (Binary64.PyFloat
                     (S754_finite false 5188146770730812 (-57)));
           Binary64.w_lng := None |} ]
      (Binary64.PyInt 9)
  with
  | Ok affected =>
      Some (map Binary64.worker_id <$> affected !! "critical",
            map Binary64.worker_id <$> affected !! "high",
            map Binary64.worker_id <$> affected !! "medium")
  | Raise _ => None
  end
  = Some (Some [], Some [], Some [Some "W001"])
  /\ Binary64.mul_float (Binary64.PyInt 9) (Binary64.float_literal 4 1000)
     = Ok (S754_finite false 5188146770730812 (-57))
  /\ Binary64.float_literal 36 1000
     = S754_finite false 5188146770730811 (-57)
  /\ match
       Binary64.calculate_danger_zones gas_leak_64
         (Binary64.PyFloat (S754_finite true 20 (-1074)))
     with
     | Ok zones => Some (map Binary64.radius zones)
     | Raise _ => None
     end
     = Some [S754_zero true; S754_zero true; S754_zero true]
  /\ Binary64.calculate_danger_zones gas_leak_64
       (Binary64.PyInt (- 10 ^ 400))
     = Raise OverflowError.
Proof. repeat split; vm_compute; reflexivity. Qed.
